(** * Drift detection engine of dep_ai: app/drift_detect.py and the drift
    part of app/main.py.

    A Python float is the rational [Q] it denotes; float arithmetic rounds
    its exact result to binary64 with [to_double] (nearest, ties to even,
    53-bit significand, subnormals; overflow to infinity is not modelled,
    the values computed here stay far below it).  A missing CSV cell
    (pandas [NaN]) is [None].  The KS test [scipy.stats.ks_2samp] is a library
    function outside the repository: it is a Section variable that returns
    either an exception or the pair [(statistic, pvalue)].  File-system
    effects (makedirs, read_csv, open/json.dump) are read from an
    environment record; written files are kept in an explicit world
    state. *)

From Stdlib Require Import String Ascii List QArith Qround Qabs Qpower ZArith Bool Lia Lqa.
Import ListNotations.
Local Open Scope string_scope.

(** ** Exceptions and the result type *)

Inductive exc :=
| FileNotFoundError (path : string)
| PermissionError (path : string)
| FileExistsError (path : string)
| ValueError (msg : string)
| EmptyDataError
| OSError (msg : string)
| ZeroDivisionError.

Inductive res (A : Type) :=
| Ok (a : A)
| Err (e : exc).
Arguments Ok {A} a.
Arguments Err {A} e.

(** ** Tabular data (pandas DataFrame) *)

Definition column := list (option Q).

(** A DataFrame as read by [pd.read_csv]: its columns in header order. *)
Definition DataFrame := list (string * column).

Definition columns (df : DataFrame) : list string := map fst df.

Fixpoint df_get (df : DataFrame) (c : string) : column :=
  match df with
  | [] => []
  | (c', col) :: rest => if String.eqb c c' then col else df_get rest c
  end.

(** [Series.dropna()]: missing cells removed. *)
Fixpoint dropna (col : column) : list Q :=
  match col with
  | [] => []
  | Some x :: rest => x :: dropna rest
  | None :: rest => dropna rest
  end.

(** [col in prod.columns] *)
Definition py_in (c : string) (cs : list string) : bool :=
  existsb (String.eqb c) cs.

(** Python's [<] on floats. *)
Definition py_lt (a b : Q) : bool := negb (Qle_bool b a).

(** ** Binary64 floats *)

(** [2 ^ e] for an integer exponent. *)
Definition pow2 (e : Z) : Q := Qpower 2 e.

(** The integer nearest to [y], ties to even. *)
Definition rne (y : Q) : Z :=
  let n := Qfloor y in
  let f := y - inject_Z n in
  if py_lt f (1 # 2) then n
  else if py_lt (1 # 2) f then (n + 1)%Z
  else if Z.even n then n else (n + 1)%Z.

(** [floor (log2 q)] for [q > 0]. *)
Definition flog2 (q : Q) : Z :=
  let e0 := (Z.log2 (Qnum q) - Z.log2 (Zpos (Qden q)))%Z in
  if Qle_bool (pow2 e0) q then e0 else (e0 - 1)%Z.

(** The exponent of the last significand bit of a binary64 value near [q]:
    53 significant bits, and no bit below [2 ^ -1074]. *)
Definition fexp (q : Q) : Z := Z.max (flog2 (Qabs q) - 52) (-1074).

(** IEEE 754 round-to-nearest-even of an exact result to binary64: what
    every float operation and float literal of the Python code does. *)
Definition to_double (q : Q) : Q :=
  inject_Z (rne (q / pow2 (fexp q))) * pow2 (fexp q).

(** The finite binary64 values (the exponent is not bounded above). *)
Definition is_double (v : Q) : Prop :=
  exists m s, v == inject_Z m * pow2 s /\ (Z.abs m <= 2 ^ 53)%Z /\ (-1074 <= s)%Z.

(** ** Per-feature result and the results dict *)

Record FeatureDriftResult := {
  p_value : Q;
  statistic : Q;
  drift_detected : bool;
  type : string
}.

Definition results := list (string * FeatureDriftResult).

(** [d[k] = v] on a Python dict: overwrite in place or append. *)
Fixpoint dict_set {V} (d : list (string * V)) (k : string) (v : V)
  : list (string * V) :=
  match d with
  | [] => [(k, v)]
  | (k', v') :: rest =>
      if String.eqb k k' then (k, v) :: rest else (k', v') :: dict_set rest k v
  end.

Fixpoint dict_get {V} (d : list (string * V)) (k : string) : option V :=
  match d with
  | [] => None
  | (k', v) :: rest => if String.eqb k k' then Some v else dict_get rest k
  end.

(** ** Aggregate risk and log records *)

Inductive risk_level := LOW | MEDIUM | HIGH.

Inductive log_event :=
| DriftDetection (drift_percentage : Q) (risk_level : risk_level)
| FeatureDrift (feature_name : string) (p_value statistic : Q) (type : string)
| DriftError.

(** ** File-system environment and world state *)

(** What [pd.read_csv] finds at a path. *)
Inductive csv_file :=
| Missing                   (** no such file *)
| Unreadable (ex : exc)     (** the file exists but reading or parsing it raises [ex]
                                (empty file, malformed CSV, no permission, a directory) *)
| Csv (df : DataFrame).     (** the parsed table *)

(** What [open(path, "w")] followed by writing the file does. *)
Inductive write_outcome :=
| Written                   (** open, write and close succeed *)
| OpenFailed (ex : exc)     (** [open] raises: the file is not touched *)
| DumpFailed (ex : exc).    (** [open] created or truncated the file, then writing
                                or closing it raised *)

(** The content of a written file. *)
Inductive artifact :=
| Report (r : results)      (** the complete JSON report *)
| Incomplete.               (** empty or partial content *)

Record env := {
  fs : string -> csv_file;
  (** [os.makedirs(d, exist_ok=True)]: [None] on success. *)
  makedirs : string -> option exc;
  write_file : string -> write_outcome
}.

Record world := {
  (** [datetime.now().strftime('%Y%m%d_%H%M%S')] at the time of the call *)
  clock : string;
  (** files written so far, newest first: path and content *)
  artifacts : list (string * artifact);
  (** records sent to the Application Insights logger *)
  logs : list log_event
}.

Definition read_csv (e : env) (path : string) : res DataFrame :=
  match fs e path with
  | Csv df => Ok df
  | Unreadable ex => Err ex
  | Missing => Err (FileNotFoundError path)
  end.

(** The dict literal stored as [results[col]] in [detect_drift]. *)
Definition feature_result (stat p threshold : Q) : FeatureDriftResult :=
  {| p_value := p;
     statistic := stat;
     drift_detected := py_lt p threshold;
     type := "numerical" |}.

(** The loop's filter: [col != "Exited" and col in prod.columns]. *)
Definition selected (prod : DataFrame) (col : string) : bool :=
  negb (String.eqb col "Exited") && py_in col (columns prod).

Section DriftDetect.

(** [scipy.stats.ks_2samp(a, b)]: [(statistic, pvalue)] or an exception. *)
Variable ks_2samp : list Q -> list Q -> res (Q * Q).

(** The body of the [for col in ref.columns] loop of [detect_drift]. *)
Fixpoint drift_loop (cols : list string) (ref prod : DataFrame)
  (threshold : Q) (acc : results) : res results :=
  match cols with
  | [] => Ok acc
  | col :: rest =>
      if selected prod col then
        match ks_2samp (dropna (df_get ref col)) (dropna (df_get prod col)) with
        | Err ex => Err ex
        | Ok (stat, p) =>
            drift_loop rest ref prod threshold
              (dict_set acc col (feature_result stat p threshold))
        end
      else drift_loop rest ref prod threshold acc
  end.

Definition report_path (output_dir now : string) : string :=
  output_dir ++ "/drift_" ++ now ++ ".json".

Definition detect_drift (e : env) (w : world) (reference_file production_file : string)
  (threshold : Q) (output_dir : string) : res results * world :=
  match makedirs e output_dir with
  | Some ex => (Err ex, w)
  | None =>
    match read_csv e reference_file with
    | Err ex => (Err ex, w)
    | Ok ref =>
      match read_csv e production_file with
      | Err ex => (Err ex, w)
      | Ok prod =>
        match drift_loop (columns ref) ref prod threshold [] with
        | Err ex => (Err ex, w)
        | Ok results =>
          let path := report_path output_dir (clock w) in
          match write_file e path with
          | OpenFailed ex => (Err ex, w)
          | DumpFailed ex =>
              (Err ex,
               {| clock := clock w; artifacts := (path, Incomplete) :: artifacts w;
                  logs := logs w |})
          | Written =>
              (Ok results,
               {| clock := clock w; artifacts := (path, Report results) :: artifacts w;
                  logs := logs w |})
          end
        end
      end
    end
  end.

End DriftDetect.

(** ** log_drift_to_insights (app/main.py) *)

(** Python's true division [a / b]: the correctly rounded quotient. *)
Definition py_div (a b : Q) : res Q :=
  if Qeq_bool b 0 then Err ZeroDivisionError else Ok (to_double (a / b)).

(** Python's [x * y] on floats. *)
Definition py_mul (a b : Q) : Q := to_double (a * b).

(** Python's [round(x, 2)] on a float: the exact value of [x] rounded to
    the nearest multiple of 1/100, ties to even, read back as the nearest
    binary64. *)
Definition round2 (x : Q) : Q := to_double (Qmake (rne (x * 100)) 100).

(** [sum(1 for r in drift_results.values() if r.get("drift_detected"))] *)
Definition count_drifted (r : results) : nat :=
  length (filter (fun kv => drift_detected (snd kv)) r).

(** ["LOW" if percentage < 20 else "MEDIUM" if percentage < 50 else "HIGH"] *)
Definition risk_band (percentage : Q) : risk_level :=
  if py_lt percentage 20 then LOW
  else if py_lt percentage 50 then MEDIUM
  else HIGH.

Definition feature_events (r : results) : list log_event :=
  map (fun kv => FeatureDrift (fst kv) (p_value (snd kv)) (statistic (snd kv)) (type (snd kv)))
    (filter (fun kv => drift_detected (snd kv)) r).

Definition log_drift_to_insights (drift_results : results) : res (list log_event) :=
  let total := length drift_results in
  let drifted := count_drifted drift_results in
  let percentage :=
    if Nat.eqb total 0 then Ok 0
    else match py_div (inject_Z (Z.of_nat drifted)) (inject_Z (Z.of_nat total)) with
         | Err ex => Err ex
         | Ok q => Ok (round2 (py_mul q 100))
         end in
  match percentage with
  | Err ex => Err ex
  | Ok percentage =>
      Ok (DriftDetection percentage (risk_band percentage) :: feature_events drift_results)
  end.

(** ** The /drift/check endpoint *)

Inductive response :=
| Success (features_analyzed features_drifted : nat) (results : results)
| HTTPException (status_code : Z) (detail : string).

Definition add_logs (w : world) (evs : list log_event) : world :=
  {| clock := clock w; artifacts := artifacts w; logs := logs w ++ evs |}.

(** The two [except] clauses of [check_drift]. *)
Definition handle_exc (ex : exc) (w : world) : response * world :=
  match ex with
  | FileNotFoundError p =>
      (HTTPException 404
         ("Fichier non trouvé: [Errno 2] No such file or directory: '" ++ p ++ "'"), w)
  | _ => (HTTPException 500 "Drift check failed", add_logs w [DriftError])
  end.

Definition check_drift (ks_2samp : list Q -> list Q -> res (Q * Q))
  (e : env) (w : world) (threshold : Q) : response * world :=
  match detect_drift ks_2samp e w "data/bank_churn.csv" "data/production_data.csv"
          threshold "drift_reports" with
  | (Err ex, w') => handle_exc ex w'
  | (Ok r, w') =>
      match log_drift_to_insights r with
      | Err ex => handle_exc ex w'
      | Ok evs => (Success (length r) (count_drifted r) r, add_logs w' evs)
      end
  end.

(** ** generate_drift_report (app/drift_detect.py) *)

(** What [plt.barh(features, p_values, color=colors)] and
    [plt.axvline(x=0.05)] draw. *)
Record DriftChart := {
  bar_features : list string;
  bar_p_values : list Q;
  bar_colors : list string;
  threshold_line : Q
}.

(** [savefig] is the file write at [report_path]; [now] is the clock. *)
Definition generate_drift_report (e : env) (now : string) (r : results)
  (output_dir : string) : res (string * DriftChart) :=
  match makedirs e output_dir with
  | Some ex => Err ex
  | None =>
      let features := map fst r in
      let p_values := map (fun kv => p_value (snd kv)) r in
      let drifted := map (fun kv => drift_detected (snd kv)) r in
      let colors := map (fun d : bool => if d then "red" else "green") drifted in
      let chart := {| bar_features := features; bar_p_values := p_values;
                      bar_colors := colors; threshold_line := 1 # 20 |} in
      let report_path := output_dir ++ "/drift_report_" ++ now ++ ".png" in
      match write_file e report_path with
      | OpenFailed ex | DumpFailed ex => Err ex
      | Written => Ok (report_path, chart)
      end
  end.

(** ** Request schema (app/models.py) and prediction endpoints (app/main.py) *)

Module Api.

(** A JSON request object after parsing: its numeric members by name. *)
Definition json := list (string * Q).

(** Pydantic [int] in lax mode accepts a number with no fractional part. *)
Definition is_integral (q : Q) : bool := Pos.eqb (Qden (Qred q)) 1.

(** [Field(..., ge=lo, le=hi)] on an [int] field. *)
Definition int_field (j : json) (name : string) (lo hi : Z) : option Q :=
  match dict_get j name with
  | Some v =>
      if is_integral v && Qle_bool (inject_Z lo) v && Qle_bool v (inject_Z hi)
      then Some v else None
  | None => None
  end.

(** [Field(..., ge=0)] on a [float] field. *)
Definition float_ge0_field (j : json) (name : string) : option Q :=
  match dict_get j name with
  | Some v => if Qle_bool 0 v then Some v else None
  | None => None
  end.

Record CustomerFeatures := {
  CreditScore : Q; Age : Q; Tenure : Q; Balance : Q; NumOfProducts : Q;
  HasCrCard : Q; IsActiveMember : Q; EstimatedSalary : Q;
  Geography_Germany : Q; Geography_Spain : Q
}.

(** Validation of a [CustomerFeatures] body; [None] is FastAPI's 422. *)
Definition parse_customer (j : json) : option CustomerFeatures :=
  match int_field j "CreditScore" 300 850, int_field j "Age" 18 100,
        int_field j "Tenure" 0 10, float_ge0_field j "Balance",
        int_field j "NumOfProducts" 1 4, int_field j "HasCrCard" 0 1,
        int_field j "IsActiveMember" 0 1, float_ge0_field j "EstimatedSalary",
        int_field j "Geography_Germany" 0 1, int_field j "Geography_Spain" 0 1 with
  | Some cs, Some a, Some t, Some b, Some np, Some cc, Some am, Some es, Some gg, Some gs =>
      Some {| CreditScore := cs; Age := a; Tenure := t; Balance := b; NumOfProducts := np;
              HasCrCard := cc; IsActiveMember := am; EstimatedSalary := es;
              Geography_Germany := gg; Geography_Spain := gs |}
  | _, _, _, _, _, _, _, _, _, _ => None
  end.

(** The row [np.array([[features.CreditScore, ..., features.Geography_Spain]])]. *)
Definition input_vector (f : CustomerFeatures) : list Q :=
  [CreditScore f; Age f; Tenure f; Balance f; NumOfProducts f; HasCrCard f;
   IsActiveMember f; EstimatedSalary f; Geography_Germany f; Geography_Spain f].

(** Outcome of code inside a [try]: a value, or an exception seen only
    through [str(e)]. *)
Inductive outcome (A : Type) :=
| Done (a : A)
| Raised (msg : string).
Arguments Done {A} a.
Arguments Raised {A} msg.

(** A loaded model: [model.predict_proba] on a 2-D array. *)
Definition classifier := list (list Q) -> outcome (list (list Q)).

Fixpoint nat_str_aux (fuel n : nat) (acc : string) : string :=
  match fuel with
  | O => acc
  | S f =>
      let acc' := String (Ascii.ascii_of_nat (48 + n mod 10)%nat) acc in
      if Nat.ltb n 10 then acc' else nat_str_aux f (n / 10)%nat acc'
  end.

Definition nat_str (n : nat) : string := nat_str_aux (S n) n "".

(** numpy indexing [a[i]] along axis 0. *)
Definition np_index {A} (a : list A) (i : nat) : outcome A :=
  match nth_error a i with
  | Some x => Done x
  | None => Raised ("index " ++ nat_str i ++ " is out of bounds for axis 0 with size "
                    ++ nat_str (length a))
  end.

(** [float(model.predict_proba(input_data)[0][1])] *)
Definition churn_proba (model : classifier) (f : CustomerFeatures) : outcome Q :=
  match model [input_vector f] with
  | Raised m => Raised m
  | Done rows =>
      match np_index rows 0 with
      | Raised m => Raised m
      | Done row => np_index row 1
      end
  end.

(** [round(x, 4)]: the nearest multiple of 1/10000 (ties to even), read
    back as the nearest binary64. *)
Definition round4 (x : Q) : Q := to_double (Qmake (rne (x * 10000)) 10000).

Inductive http (A : Type) :=
| HTTP200 (body : A)
| HTTPError (status_code : Z) (detail : string).
Arguments HTTP200 {A} body.
Arguments HTTPError {A} status_code detail.

Inductive api_log :=
| ModelLoaded (model_path : string)
| ModelLoadFailed (error : string)
| Prediction (probability : Q) (prediction : Z) (risk_level : string)
| PredictionError (error : string)
| BatchPrediction (count : nat)
| BatchPredictionError (error : string).

Record PredictionResponse := {
  churn_probability : Q;
  prediction : Z;
  risk_level : string
}.

Record BatchItem := {
  item_churn_probability : Q;
  item_prediction : Z
}.

Record BatchPredictionResponse := {
  predictions : list BatchItem;
  count : nat
}.

Record HealthResponse := {
  status : string;
  model_loaded : bool
}.

(** [int(proba > 0.5)]; the literal 0.5 is exact in binary64. *)
Definition prediction_of (proba : Q) : Z := if py_lt (1 # 2) proba then 1%Z else 0%Z.

(** ["Low" if proba < 0.3 else "Medium" if proba < 0.7 else "High"], with
    the float literals 0.3 and 0.7. *)
Definition risk_of (proba : Q) : string :=
  if py_lt proba (to_double (3 # 10)) then "Low"
  else if py_lt proba (to_double (7 # 10)) then "Medium" else "High".

(** FastAPI's request validation (422) runs before the handler. *)
Definition validation_error {A} : http A := HTTPError 422 "Unprocessable Entity".

(** [@app.post("/predict")] with the module-level [model]. *)
Definition predict (model : option classifier) (body : json)
  : http PredictionResponse * list api_log :=
  match parse_customer body with
  | None => (validation_error, [])
  | Some features =>
    match model with
    | None => (HTTPError 503 "Model unavailable", [])
    | Some m =>
      match churn_proba m features with
      | Raised err => (HTTPError 500 err, [PredictionError err])
      | Done proba =>
          let prediction := prediction_of proba in
          let risk := risk_of proba in
          (HTTP200 {| churn_probability := round4 proba; prediction := prediction;
                      risk_level := risk |},
           [Prediction proba prediction risk])
      end
    end
  end.

(** [List[CustomerFeatures]] validation: every element must validate. *)
Fixpoint parse_customers (bodies : list json) : option (list CustomerFeatures) :=
  match bodies with
  | [] => Some []
  | b :: rest =>
      match parse_customer b, parse_customers rest with
      | Some f, Some fs => Some (f :: fs)
      | _, _ => None
      end
  end.

(** The [for features in features_list] loop of [predict_batch]. *)
Fixpoint batch_loop (m : classifier) (features_list : list CustomerFeatures)
  : outcome (list BatchItem) :=
  match features_list with
  | [] => Done []
  | f :: rest =>
      match churn_proba m f with
      | Raised err => Raised err
      | Done proba =>
          match batch_loop m rest with
          | Raised err => Raised err
          | Done items =>
              Done ({| item_churn_probability := round4 proba;
                       item_prediction := prediction_of proba |} :: items)
          end
      end
  end.

Definition predict_batch (model : option classifier) (bodies : list json)
  : http BatchPredictionResponse * list api_log :=
  match parse_customers bodies with
  | None => (validation_error, [])
  | Some features_list =>
    match model with
    | None => (HTTPError 503 "Model unavailable", [])
    | Some m =>
      match batch_loop m features_list with
      | Raised err => (HTTPError 500 err, [BatchPredictionError err])
      | Done predictions =>
          (HTTP200 {| predictions := predictions; count := length predictions |},
           [BatchPrediction (length predictions)])
      end
    end
  end.

Definition health (model : option classifier) : http HealthResponse :=
  match model with
  | None => HTTPError 503 "Model not loaded"
  | Some _ => HTTP200 {| status := "healthy"; model_loaded := true |}
  end.

(** The startup hook [load_model]: [joblib.load(MODEL_PATH)] or [None]. *)
Definition load_model (joblib_load : string -> outcome classifier) (MODEL_PATH : string)
  : option classifier * list api_log :=
  match joblib_load MODEL_PATH with
  | Done m => (Some m, [ModelLoaded MODEL_PATH])
  | Raised err => (None, [ModelLoadFailed err])
  end.

End Api.

(** ** The Streamlit client (streamlit_app.py) *)

Module Client.

(** The [customer_data] dict built from the form widgets. *)
Definition customer_data (credit_score age tenure : Z) (balance : Q) (num_products : Z)
  (has_cr_card is_active_member : bool) (estimated_salary : Q) (geography : string)
  : Api.json :=
  let geography_germany : Z := if String.eqb geography "Allemagne" then 1%Z else 0%Z in
  let geography_spain : Z := if String.eqb geography "Espagne" then 1%Z else 0%Z in
  [("CreditScore", inject_Z credit_score); ("Age", inject_Z age);
   ("Tenure", inject_Z tenure); ("Balance", balance);
   ("NumOfProducts", inject_Z num_products);
   ("HasCrCard", if has_cr_card then 1 else 0);
   ("IsActiveMember", if is_active_member then 1 else 0);
   ("EstimatedSalary", estimated_salary);
   ("Geography_Germany", inject_Z geography_germany);
   ("Geography_Spain", inject_Z geography_spain)].

(** The drift panel: [drift_pct] from the response counts, then its label. *)
Definition drift_pct (features_analyzed features_drifted : nat) : Q :=
  if Nat.ltb 0 features_analyzed
  then py_mul (to_double (inject_Z (Z.of_nat features_drifted) /
                          inject_Z (Z.of_nat features_analyzed))) 100
  else 0.

Definition risk_label (drift_pct : Q) : string :=
  if py_lt drift_pct 20 then "🟢 LOW"
  else if py_lt drift_pct 50 then "🟡 MEDIUM"
  else "🔴 HIGH".

(** The label the panel shows after a successful [/drift/check] answer. *)
Definition panel_risk (resp : response) : option string :=
  match resp with
  | Success features_analyzed features_drifted _ =>
      Some (risk_label (drift_pct features_analyzed features_drifted))
  | HTTPException _ _ => None
  end.

End Client.

(** ** Concrete fixtures *)

Fixpoint samples_eqb (a b : list Q) : bool :=
  match a, b with
  | [], [] => true
  | x :: a', y :: b' => Qeq_bool x y && samples_eqb a' b'
  | _, _ => false
  end.

(** A stand-in for [ks_2samp] used to run the model on concrete inputs:
    identical samples give [(0, 1)], different ones [(1, 0.01)]. *)
Definition toy_ks_2samp (a b : list Q) : res (Q * Q) :=
  if samples_eqb a b then Ok (0, 1) else Ok (1, 1 # 100).

Definition bank_ref : DataFrame :=
  [("CreditScore", [Some 600; Some 700]);
   ("Age", [Some 30; None]);
   ("Exited", [Some 0; Some 1]);
   ("Tenure", [Some 2])].

Definition bank_prod : DataFrame :=
  [("CreditScore", [Some 600; Some 700]);
   ("Age", [Some 50; Some 60]);
   ("Exited", [Some 1]);
   ("Balance", [Some 0])].

Definition demo_fs (path : string) : csv_file :=
  if String.eqb path "data/bank_churn.csv" then Csv bank_ref
  else if String.eqb path "data/production_data.csv" then Csv bank_prod
  else Missing.

Definition demo_env : env :=
  {| fs := demo_fs; makedirs := fun _ => None; write_file := fun _ => Written |}.

(** Same data, but the report directory is read-only. *)
Definition readonly_env : env :=
  {| fs := demo_fs; makedirs := fun _ => None;
     write_file := fun p => OpenFailed (PermissionError p) |}.

(** Same data, but the disk fills up while the report is written. *)
Definition disk_full_env : env :=
  {| fs := demo_fs; makedirs := fun _ => None;
     write_file := fun _ => DumpFailed (OSError "[Errno 28] No space left on device") |}.


(** The production file is missing. *)
Definition prod_missing_env : env :=
  {| fs := fun p => if String.eqb p "data/bank_churn.csv" then Csv bank_ref else Missing;
     makedirs := fun _ => None; write_file := fun _ => Written |}.


Definition demo_world : world :=
  {| clock := "20261017_120000"; artifacts := []; logs := [] |}.

(** What [detect_drift] returns on the fixtures at threshold 0.05. *)
Definition demo_results : results :=
  [("CreditScore", feature_result 0 1 (1 # 20));
   ("Age", feature_result 1 (1 # 100) (1 # 20))].

(** The same run at threshold 0.1. *)
Definition demo_results_t10 : results :=
  [("CreditScore", feature_result 0 1 (1 # 10));
   ("Age", feature_result 1 (1 # 100) (1 # 10))].

Definition demo_world_after : world :=
  {| clock := "20261017_120000";
     artifacts := [("drift_reports/drift_20261017_120000.json", Report demo_results)];
     logs := [] |}.

(** [TEST_CUSTOMER] of tests/test_api.py. *)
Definition test_customer : Api.json :=
  [("CreditScore", 650); ("Age", 35); ("Tenure", 5); ("Balance", 50000);
   ("NumOfProducts", 2); ("HasCrCard", 1); ("IsActiveMember", 1);
   ("EstimatedSalary", 75000); ("Geography_Germany", 0); ("Geography_Spain", 1)].

(** The mocked [predict_proba] of tests/test_api.py. *)
Definition mock_model : Api.classifier :=
  fun _ => Api.Done [[to_double (2 # 10); to_double (8 # 10)]].

(** A model trained on one class only: one probability column. *)
Definition one_class_model : Api.classifier := fun _ => Api.Done [[1]].

(** ** Runs on the fixtures *)

Example detect_drift_demo :
  fst (detect_drift toy_ks_2samp demo_env demo_world
         "data/bank_churn.csv" "data/production_data.csv" (1 # 20) "drift_reports")
  = Ok [("CreditScore", feature_result 0 1 (1 # 20));
        ("Age", feature_result 1 (1 # 100) (1 # 20))].
Proof. reflexivity. Qed.

Example check_drift_demo :
  fst (check_drift toy_ks_2samp demo_env demo_world (1 # 20))
  = Success 2 1 [("CreditScore", feature_result 0 1 (1 # 20));
                 ("Age", feature_result 1 (1 # 100) (1 # 20))].
Proof. reflexivity. Qed.

(** Float literals and arithmetic: [0.1] is not [1/10], [0.2 * 100] is
    exactly [20.0], and [round((23 / 160) * 100, 2)] is [14.37], not the
    [14.38] exact arithmetic would give. *)
Example float_demo :
  ~ (to_double (1 # 10) == 1 # 10) /\
  py_mul (to_double (2 # 10)) 100 == 20 /\
  round2 (py_mul (to_double (23 # 160)) 100) == to_double (1437 # 100) /\
  round2 (py_mul (to_double (1 # 3)) 100) == to_double (3333 # 100) /\
  Api.round4 (to_double (8 # 10)) == to_double (8 # 10).
Proof.
  repeat split; vm_compute; first [reflexivity | discriminate | intro H; discriminate H].
Qed.

Example predict_mock_demo :
  Api.predict (Some mock_model) test_customer
  = (Api.HTTP200 {| Api.churn_probability := Api.round4 (to_double (8 # 10));
                    Api.prediction := 1%Z; Api.risk_level := "High" |},
     [Api.Prediction (to_double (8 # 10)) 1%Z "High"]).
Proof. vm_compute. reflexivity. Qed.

Example predict_invalid_demo :
  fst (Api.predict (Some mock_model) [("CreditScore", 100); ("Age", 35)])
  = Api.HTTPError 422 "Unprocessable Entity".
Proof. reflexivity. Qed.

Example predict_one_class_demo :
  fst (Api.predict (Some one_class_model) test_customer)
  = Api.HTTPError 500 "index 1 is out of bounds for axis 0 with size 1".
Proof. reflexivity. Qed.

Example batch_demo :
  fst (Api.predict_batch (Some mock_model) [test_customer; test_customer])
  = Api.HTTP200 {| Api.predictions :=
                     [{| Api.item_churn_probability := Api.round4 (to_double (8 # 10));
                         Api.item_prediction := 1%Z |};
                      {| Api.item_churn_probability := Api.round4 (to_double (8 # 10));
                         Api.item_prediction := 1%Z |}];
                   Api.count := 2 |}.
Proof. vm_compute. reflexivity. Qed.

(** ** The results dict *)

Lemma dict_set_In {V} (d : list (string * V)) k v k' v' :
  In (k', v') (dict_set d k v) -> (k', v') = (k, v) \/ In (k', v') d.
Proof.
  induction d as [| [k0 v0] d IH]; simpl.
  - intros [H | []]. now left.
  - destruct (String.eqb k k0); simpl.
    + intros [H | H]; [now left | now right; right].
    + intros [H | H]; [now right; left | ].
      destruct (IH H); [now left | now right; right].
Qed.

Lemma dict_set_keys {V} (d : list (string * V)) k v k' :
  In k' (map fst (dict_set d k v)) <-> k' = k \/ In k' (map fst d).
Proof.
  induction d as [| [k0 v0] d IH]; simpl.
  - intuition congruence.
  - destruct (String.eqb k k0) eqn:E; simpl.
    + apply String.eqb_eq in E; subst. intuition congruence.
    + rewrite IH. tauto.
Qed.

Lemma keys_In {V} (d : list (string * V)) k :
  In k (map fst d) -> exists v, In (k, v) d.
Proof.
  induction d as [| [k0 v0] d IH]; simpl; [tauto |].
  intros [-> | H]; [now exists v0; left |].
  destruct (IH H) as [v Hv]. now exists v; right.
Qed.

Lemma In_keys {V} (d : list (string * V)) k v :
  In (k, v) d -> In k (map fst d).
Proof.
  intro H. apply (in_map fst) in H. exact H.
Qed.

Lemma py_in_In c cs : py_in c cs = true <-> In c cs.
Proof.
  unfold py_in. rewrite existsb_exists. split.
  - intros [x [Hx E]]. apply String.eqb_eq in E. now subst.
  - intros H. exists c. split; [exact H | apply String.eqb_refl].
Qed.

Lemma selected_spec prod c :
  selected prod c = true <-> c <> "Exited" /\ In c (columns prod).
Proof.
  unfold selected. rewrite andb_true_iff, negb_true_iff, py_in_In.
  rewrite String.eqb_neq. tauto.
Qed.

(** ** The feature loop of detect_drift *)

Section Loop.

Variable ks_2samp : list Q -> list Q -> res (Q * Q).
Variables ref prod : DataFrame.
Variable threshold : Q.

(** Every entry of the loop's result is either one it started with or the
    dict literal built from the KS outcome of a selected column. *)
Lemma drift_loop_entries cols acc r :
  drift_loop ks_2samp cols ref prod threshold acc = Ok r ->
  forall c v, In (c, v) r ->
    In (c, v) acc \/
    (In c cols /\ selected prod c = true /\
     exists stat p,
       ks_2samp (dropna (df_get ref c)) (dropna (df_get prod c)) = Ok (stat, p) /\
       v = feature_result stat p threshold).
Proof.
  revert acc. induction cols as [| col cols IH]; simpl; intros acc Hrun c v Hin.
  - injection Hrun as <-. now left.
  - destruct (selected prod col) eqn:Hsel.
    + destruct (ks_2samp _ _) as [[stat p] | ex] eqn:Hks; [| discriminate].
      destruct (IH _ Hrun c v Hin) as [Hacc | (Hc & Hs & Hv)].
      * apply dict_set_In in Hacc as [Heq | Hacc].
        -- injection Heq as -> ->. right. split; [now left |].
           split; [exact Hsel |]. now exists stat, p.
        -- now left.
      * right. split; [now right | now split].
    + destruct (IH _ Hrun c v Hin) as [Hacc | (Hc & Hs & Hv)];
        [now left | right; split; [now right | now split]].
Qed.

(** The keys of the loop's result: the starting keys and the selected
    columns. *)
Lemma drift_loop_keys cols acc r :
  drift_loop ks_2samp cols ref prod threshold acc = Ok r ->
  forall c, In c (map fst r) <->
            In c (map fst acc) \/ (In c cols /\ selected prod c = true).
Proof.
  revert acc. induction cols as [| col cols IH]; simpl; intros acc Hrun c.
  - injection Hrun as <-. tauto.
  - destruct (selected prod col) eqn:Hsel.
    + destruct (ks_2samp _ _) as [[stat p] | ex] eqn:Hks; [| discriminate].
      rewrite (IH _ Hrun c), dict_set_keys.
      split.
      * intros [[-> | H] | [H1 H2]]; [right; auto | left; exact H | right; auto].
      * intros [H | [[-> | H1] H2]]; [left; right; exact H | left; left; reflexivity |].
        right; auto.
    + rewrite (IH _ Hrun c). split.
      * intros [H | [H1 H2]]; [left; exact H | right; auto].
      * intros [H | [[-> | H1] H2]]; [left; exact H | congruence | right; auto].
Qed.

(** No per-feature isolation: an exception of [ks_2samp] on any selected
    column makes the whole loop fail. *)
Lemma drift_loop_ks_error_aborts cols acc c ex :
  In c cols -> selected prod c = true ->
  ks_2samp (dropna (df_get ref c)) (dropna (df_get prod c)) = Err ex ->
  exists ex', drift_loop ks_2samp cols ref prod threshold acc = Err ex'.
Proof.
  revert acc. induction cols as [| col cols IH]; simpl; intros acc Hin Hsel Hks;
    [contradiction |].
  destruct Hin as [<- | Hin].
  - rewrite Hsel, Hks. now exists ex.
  - destruct (selected prod col); [| now apply IH].
    destruct (ks_2samp (dropna (df_get ref col)) (dropna (df_get prod col)))
      as [[stat p] | ex0]; [now apply IH | now exists ex0].
Qed.

End Loop.

Lemma detect_drift_ok ks_2samp e w rf pf t od r w' :
  detect_drift ks_2samp e w rf pf t od = (Ok r, w') ->
  exists ref prod,
    fs e rf = Csv ref /\ fs e pf = Csv prod /\
    drift_loop ks_2samp (columns ref) ref prod t [] = Ok r /\
    w' = {| clock := clock w;
            artifacts := (report_path od (clock w), Report r) :: artifacts w;
            logs := logs w |}.
Proof.
  unfold detect_drift, read_csv.
  destruct (makedirs e od); [discriminate |].
  destruct (fs e rf) as [| ? | ref]; [discriminate | discriminate |].
  destruct (fs e pf) as [| ? | prod]; [discriminate | discriminate |].
  destruct (drift_loop _ _ _ _ _ _) as [r0 | ex] eqn:Hl; [| discriminate].
  destruct (write_file e _); [| discriminate | discriminate].
  intro H. injection H as <- <-. now exists ref, prod.
Qed.

Lemma py_lt_spec a b : py_lt a b = true <-> a < b.
Proof.
  unfold py_lt. rewrite negb_true_iff. split.
  - intro H. apply Qnot_le_lt. intro Hle. apply Qle_bool_iff in Hle. congruence.
  - intro H. destruct (Qle_bool b a) eqn:E; [| reflexivity].
    apply Qle_bool_iff in E. exfalso. apply (Qlt_not_le a b H E).
Qed.

Lemma py_lt_false a b : py_lt a b = false <-> b <= a.
Proof. unfold py_lt. rewrite negb_false_iff. apply Qle_bool_iff. Qed.

(** ** Binary64 rounding *)

Lemma pow2_pos e : 0 < pow2 e.
Proof. apply Qpower_0_lt. reflexivity. Qed.

Lemma pow2_plus a b : pow2 (a + b) == pow2 a * pow2 b.
Proof. apply Qpower_plus. discriminate. Qed.

Lemma pow2_le a b : (a <= b)%Z -> pow2 a <= pow2 b.
Proof. intro H. apply Qpower_le_compat_l; [exact H | discriminate]. Qed.

Lemma pow2_lt a b : (a < b)%Z -> pow2 a < pow2 b.
Proof. intro H. apply Qpower_lt_compat_l; [exact H | reflexivity]. Qed.

Lemma pow2_lt_inv a b : pow2 a < pow2 b -> (a < b)%Z.
Proof. intro H. apply (Qpower_lt_compat_l_inv 2); [exact H | reflexivity]. Qed.

Lemma pow2_le_inv a b : pow2 a <= pow2 b -> (a <= b)%Z.
Proof. intro H. apply (Qpower_le_compat_l_inv 2); [exact H | reflexivity]. Qed.

Lemma pow2_Z n : (0 <= n)%Z -> pow2 n == inject_Z (2 ^ n).
Proof. intro H. unfold pow2. rewrite Zpower_Qpower by exact H. reflexivity. Qed.

Lemma pow2_succ e : pow2 (e + 1) == 2 * pow2 e.
Proof. rewrite pow2_plus. unfold pow2 at 2. simpl. ring. Qed.

Lemma flog2_spec q : 0 < q -> pow2 (flog2 q) <= q /\ q < pow2 (flog2 q + 1).
Proof.
  intro Hq. destruct q as [a b]. unfold Qlt in Hq. simpl in Hq.
  rewrite Z.mul_1_r in Hq.
  pose proof (Z.log2_spec a Hq) as [Ha1 Ha2].
  pose proof (Z.log2_spec (Zpos b) eq_refl) as [Hb1 Hb2].
  pose proof (Z.log2_nonneg a) as Hla. pose proof (Z.log2_nonneg (Zpos b)) as Hlb.
  set (la := Z.log2 a) in *. set (lb := Z.log2 (Zpos b)) in *.
  assert (Hab : a # b == inject_Z a / inject_Z (Zpos b)) by apply Qmake_Qdiv.
  assert (HbQ : 0 < inject_Z (Zpos b)) by (unfold Qlt; simpl; lia).
  assert (Lo : pow2 (la - lb - 1) < a # b).
  { rewrite Hab. apply Qlt_shift_div_l; [exact HbQ |].
    assert (E : pow2 la == pow2 (la - lb - 1) * pow2 (lb + 1))
      by (rewrite <- pow2_plus; f_equiv; lia).
    assert (H1 : inject_Z (Zpos b) < pow2 (lb + 1))
      by (rewrite pow2_Z by lia; rewrite <- Zlt_Qlt; exact Hb2).
    assert (H2 : pow2 la <= inject_Z a)
      by (rewrite pow2_Z by lia; rewrite <- Zle_Qle; exact Ha1).
    pose proof (pow2_pos (la - lb - 1)).
    nra. }
  assert (Hi : a # b < pow2 (la - lb + 1)).
  { rewrite Hab. apply Qlt_shift_div_r; [exact HbQ |].
    assert (E : pow2 (la + 1) == pow2 (la - lb + 1) * pow2 lb)
      by (rewrite <- pow2_plus; f_equiv; lia).
    assert (H1 : pow2 lb <= inject_Z (Zpos b))
      by (rewrite pow2_Z by lia; rewrite <- Zle_Qle; exact Hb1).
    assert (H2 : inject_Z a < pow2 (la + 1))
      by (rewrite pow2_Z by lia; rewrite <- Zlt_Qlt; exact Ha2).
    pose proof (pow2_pos (la - lb + 1)).
    nra. }
  unfold flog2. simpl Qnum. simpl Qden. fold la lb.
  destruct (Qle_bool (pow2 (la - lb)) (a # b)) eqn:E.
  - apply Qle_bool_iff in E. split; [exact E |].
    exact Hi.
  - assert (H : a # b < pow2 (la - lb)).
    { apply Qnot_le_lt. intro H. apply Qle_bool_iff in H. congruence. }
    split; [apply Qlt_le_weak; exact Lo |].
    replace (la - lb - 1 + 1)%Z with (la - lb)%Z by lia. exact H.
Qed.

Lemma int_above (m k : Z) (y : Q) :
  y - (1 # 2) <= inject_Z m -> inject_Z k <= y -> (k <= m)%Z.
Proof.
  intros H1 H2. assert (H : inject_Z k - (1 # 2) <= inject_Z m) by lra.
  unfold Qle, Qminus, Qplus in H. simpl in H. lia.
Qed.

Lemma int_below (m k : Z) (y : Q) :
  inject_Z m <= y + (1 # 2) -> y <= inject_Z k -> (m <= k)%Z.
Proof.
  intros H1 H2. assert (H : inject_Z m <= inject_Z k + (1 # 2)) by lra.
  unfold Qle, Qplus in H. simpl in H. lia.
Qed.

Lemma rne_close y : y - (1 # 2) <= inject_Z (rne y) /\ inject_Z (rne y) <= y + (1 # 2).
Proof.
  pose proof (Qfloor_le y) as Hlo. pose proof (Qlt_floor y) as Hhi.
  set (n := Qfloor y) in *. rewrite inject_Z_plus in Hhi. change (inject_Z 1) with 1 in Hhi.
  unfold rne. fold n.
  destruct (py_lt (y - inject_Z n) (1 # 2)) eqn:E1;
    [apply py_lt_spec in E1 | apply py_lt_false in E1].
  - split; lra.
  - destruct (py_lt (1 # 2) (y - inject_Z n)) eqn:E2;
      [apply py_lt_spec in E2 | apply py_lt_false in E2].
    + rewrite inject_Z_plus. change (inject_Z 1) with 1. split; lra.
    + destruct (Z.even n); [| rewrite inject_Z_plus; change (inject_Z 1) with 1];
        split; lra.
Qed.

Lemma Qabs_ge x : x <= Qabs x /\ - x <= Qabs x.
Proof. split; [apply Qle_Qabs |]. rewrite <- Qabs_opp. apply Qle_Qabs. Qed.

Lemma Qabs_le_cases x y :
  Qabs x <= Qabs y -> (- y <= x /\ x <= y) \/ (y <= x /\ x <= - y).
Proof.
  intro H. apply Qabs_Qle_condition in H.
  destruct (Qlt_le_dec y 0) as [Hy | Hy].
  - rewrite Qabs_neg in H by lra. right. lra.
  - rewrite Qabs_pos in H by lra. left. lra.
Qed.

(** [rne y] is an integer nearest to [y]. *)
Lemma rne_best y k : Qabs (inject_Z (rne y) - y) <= Qabs (inject_Z k - y).
Proof.
  pose proof (Qfloor_le y) as Hlo. pose proof (Qlt_floor y) as Hhi.
  set (n := Qfloor y) in *. rewrite inject_Z_plus in Hhi. change (inject_Z 1) with 1 in Hhi.
  assert (Hm : Qabs (inject_Z (rne y) - y) <= y - inject_Z n /\
               Qabs (inject_Z (rne y) - y) <= inject_Z n + 1 - y).
  { unfold rne. fold n.
    destruct (py_lt (y - inject_Z n) (1 # 2)) eqn:E1;
      [apply py_lt_spec in E1 | apply py_lt_false in E1].
    - split; apply Qabs_Qle_condition; split; lra.
    - destruct (py_lt (1 # 2) (y - inject_Z n)) eqn:E2;
        [apply py_lt_spec in E2 | apply py_lt_false in E2].
      + rewrite inject_Z_plus. change (inject_Z 1) with 1.
        split; apply Qabs_Qle_condition; split; lra.
      + destruct (Z.even n); [| rewrite inject_Z_plus; change (inject_Z 1) with 1];
          split; apply Qabs_Qle_condition; split; lra. }
  pose proof (Qabs_ge (inject_Z k - y)) as [Ha Hb].
  destruct (Z.le_gt_cases k n) as [Hk | Hk].
  - rewrite Zle_Qle in Hk. lra.
  - assert (Hk' : (n + 1 <= k)%Z) by lia. rewrite Zle_Qle in Hk'.
    rewrite inject_Z_plus in Hk'. change (inject_Z 1) with 1 in Hk'. lra.
Qed.

Lemma py_lt_Qeq a1 a2 b1 b2 : a1 == a2 -> b1 == b2 -> py_lt a1 b1 = py_lt a2 b2.
Proof.
  intros Ha Hb. apply eq_true_iff_eq. rewrite !py_lt_spec. rewrite Ha, Hb. reflexivity.
Qed.

Lemma rne_Qeq y1 y2 : y1 == y2 -> rne y1 = rne y2.
Proof.
  intro H. unfold rne. rewrite (Qfloor_comp y1 y2 H).
  rewrite (py_lt_Qeq (y1 - inject_Z (Qfloor y2)) (y2 - inject_Z (Qfloor y2)) (1 # 2) (1 # 2))
    by (first [reflexivity | rewrite H; reflexivity]).
  rewrite (py_lt_Qeq (1 # 2) (1 # 2) (y1 - inject_Z (Qfloor y2)) (y2 - inject_Z (Qfloor y2)))
    by (first [reflexivity | rewrite H; reflexivity]).
  reflexivity.
Qed.

Lemma Qabs_nonneg_eq q : 0 <= q -> Qabs q = q.
Proof.
  destruct q as [n d]. unfold Qle. simpl. intro H. unfold Qabs. f_equal. lia.
Qed.

Lemma to_double_err_eq q :
  Qabs (to_double q - q) ==
  Qabs (inject_Z (rne (q / pow2 (fexp q))) - q / pow2 (fexp q)) * pow2 (fexp q).
Proof.
  unfold to_double. set (s := fexp q). set (P := pow2 s).
  assert (HP : 0 < P) by apply pow2_pos.
  transitivity (Qabs ((inject_Z (rne (q / P)) - q / P) * P)).
  - apply Qabs_wd. field. lra.
  - rewrite Qabs_Qmult. rewrite (Qabs_pos P) by lra. reflexivity.
Qed.

Lemma to_double_grid q k :
  Qabs (to_double q - q) <= Qabs (inject_Z k * pow2 (fexp q) - q).
Proof.
  rewrite to_double_err_eq. set (s := fexp q). set (P := pow2 s).
  assert (HP : 0 < P) by apply pow2_pos.
  assert (E : Qabs (inject_Z k * P - q) == Qabs (inject_Z k - q / P) * P).
  { transitivity (Qabs ((inject_Z k - q / P) * P)).
    - apply Qabs_wd. field. lra.
    - rewrite Qabs_Qmult. rewrite (Qabs_pos P) by lra. reflexivity. }
  rewrite E. apply Qmult_le_compat_r; [apply rne_best | lra].
Qed.

Lemma to_double_zero q : q == 0 -> to_double q == 0.
Proof.
  intro H. unfold to_double. set (P := pow2 (fexp q)).
  rewrite (rne_Qeq (q / P) 0) by (rewrite H; unfold Qdiv; ring).
  replace (rne 0) with 0%Z by reflexivity. ring.
Qed.

Lemma fexp_pos q : 0 < q -> fexp q = Z.max (flog2 q - 52) (-1074).
Proof. intro H. unfold fexp. rewrite Qabs_nonneg_eq by lra. reflexivity. Qed.

(** Rounding to the nearest binary64 value. *)
Lemma to_double_nearest q v :
  0 <= q -> is_double v -> Qabs (to_double q - q) <= Qabs (v - q).
Proof.
  intros Hq (m' & s' & Hv & Hm' & Hs').
  rewrite Hv.
  destruct (Qle_lt_or_eq 0 q Hq) as [Hpos | H0].
  2: { rewrite (to_double_zero q) by (symmetry; exact H0).
       rewrite <- H0. setoid_replace (0 - 0) with 0 by ring. apply Qabs_nonneg. }
  set (s := fexp q).
  destruct (Z_le_gt_dec s s') as [Hle | Hgt].
  - assert (E : inject_Z m' * pow2 s' == inject_Z (m' * 2 ^ (s' - s)) * pow2 s).
    { rewrite inject_Z_mult, <- pow2_Z by lia. rewrite <- Qmult_assoc, <- pow2_plus.
      replace (s' - s + s)%Z with s' by lia. reflexivity. }
    rewrite E. apply to_double_grid.
  - pose proof (fexp_pos q Hpos) as Hs. fold s in Hs.
    assert (He : s = (flog2 q - 52)%Z) by lia.
    destruct (flog2_spec q Hpos) as [Hf _].
    assert (Hm : inject_Z m' <= pow2 53).
    { rewrite pow2_Z by lia. rewrite <- Zle_Qle. lia. }
    assert (Hb : pow2 53 * pow2 s' <= pow2 (flog2 q)).
    { rewrite <- pow2_plus. apply pow2_le. lia. }
    pose proof (pow2_pos s').
    assert (Hv' : inject_Z m' * pow2 s' <= pow2 (flog2 q)) by nra.
    assert (Eg : pow2 (flog2 q) == inject_Z (2 ^ 52) * pow2 s).
    { rewrite <- pow2_Z by lia. rewrite <- pow2_plus. f_equiv. lia. }
    pose proof (to_double_grid q (2 ^ 52)) as Hg. fold s in Hg. rewrite <- Eg in Hg.
    rewrite (Qabs_neg (pow2 (flog2 q) - q)) in Hg by lra.
    rewrite (Qabs_neg (inject_Z m' * pow2 s' - q)) by lra.
    lra.
Qed.

Lemma to_double_is_double q : 0 <= q -> is_double (to_double q).
Proof.
  intro Hq. unfold to_double. set (s := fexp q).
  exists (rne (q / pow2 s)), s. split; [reflexivity |].
  split; [| unfold s, fexp; lia].
  set (y := q / pow2 s).
  assert (HP : 0 < pow2 s) by apply pow2_pos.
  assert (Hy0 : 0 <= y) by (apply Qle_shift_div_l; [exact HP | lra]).
  assert (Hy1 : y <= inject_Z (2 ^ 53)).
  { rewrite <- pow2_Z by lia.
    destruct (Qle_lt_or_eq 0 q Hq) as [Hpos | H0].
    - apply Qle_shift_div_r; [exact HP |].
      destruct (flog2_spec q Hpos) as [_ Hf].
      pose proof (fexp_pos q Hpos) as Hs. fold s in Hs.
      rewrite <- pow2_plus. apply Qlt_le_weak. apply (Qlt_le_trans _ _ _ Hf).
      apply pow2_le. lia.
    - unfold y. rewrite <- H0. unfold Qdiv. rewrite Qmult_0_l. apply Qlt_le_weak, pow2_pos. }
  destruct (rne_close y) as [Hlo Hhi].
  assert (A : (0 <= rne y)%Z) by (apply (int_above _ 0 y Hlo); exact Hy0).
  assert (B : (rne y <= 2 ^ 53)%Z) by (apply (int_below _ _ y Hhi); exact Hy1).
  lia.
Qed.

Lemma flog2_unique a b : 0 < a -> a == b -> flog2 a = flog2 b.
Proof.
  intros Ha Hab.
  assert (Hb : 0 < b) by (rewrite <- Hab; exact Ha).
  destruct (flog2_spec a Ha) as [A1 A2]. destruct (flog2_spec b Hb) as [B1 B2].
  assert (B1' : pow2 (flog2 b) <= a) by lra.
  assert (B2' : a < pow2 (flog2 b + 1)) by lra.
  assert (flog2 a < flog2 b + 1)%Z by (apply pow2_lt_inv; apply (Qle_lt_trans _ a); assumption).
  assert (flog2 b < flog2 a + 1)%Z by (apply pow2_lt_inv; apply (Qle_lt_trans _ a); assumption).
  lia.
Qed.

Lemma to_double_Qeq q1 q2 : q1 == q2 -> to_double q1 == to_double q2.
Proof.
  intro H.
  destruct (Qlt_le_dec 0 (Qabs q1)) as [Hp | Hn].
  - assert (Hf : fexp q1 = fexp q2).
    { unfold fexp. rewrite (flog2_unique (Qabs q1) (Qabs q2) Hp) by (rewrite H; reflexivity).
      reflexivity. }
    unfold to_double. rewrite Hf.
    rewrite (rne_Qeq (q1 / pow2 (fexp q2)) (q2 / pow2 (fexp q2))) by (rewrite H; reflexivity).
    reflexivity.
  - assert (H0 : q1 == 0).
    { apply Qabs_Qle_condition in Hn. lra. }
    rewrite (to_double_zero q1 H0), (to_double_zero q2) by (rewrite <- H; exact H0).
    reflexivity.
Qed.

Lemma to_double_mono q1 q2 : 0 <= q1 -> q1 <= q2 -> to_double q1 <= to_double q2.
Proof.
  intros H1 H12.
  destruct (Qle_lt_or_eq q1 q2 H12) as [Hlt | Heq].
  2: { rewrite (to_double_Qeq q1 q2 Heq). apply Qle_refl. }
  apply Qnot_lt_le. intro Hc.
  pose proof (to_double_nearest q1 (to_double q2) H1
                (to_double_is_double q2 ltac:(lra))) as N1.
  pose proof (to_double_nearest q2 (to_double q1) ltac:(lra)
                (to_double_is_double q1 H1)) as N2.
  apply Qabs_le_cases in N1. apply Qabs_le_cases in N2.
  destruct N1 as [[? ?] | [? ?]]; destruct N2 as [[? ?] | [? ?]]; lra.
Qed.

Lemma to_double_exact v : is_double v -> 0 <= v -> to_double v == v.
Proof.
  intros Hv H0. pose proof (to_double_nearest v v H0 Hv) as N.
  setoid_replace (v - v) with 0 in N by ring. change (Qabs 0) with 0 in N.
  apply Qabs_Qle_condition in N. lra.
Qed.

Lemma to_double_nonneg q : 0 <= q -> 0 <= to_double q.
Proof.
  intro H. rewrite <- (to_double_zero 0) by reflexivity.
  apply to_double_mono; [apply Qle_refl | exact H].
Qed.

(** On [0, 1] the rounding error is at most 2^-53. *)
Lemma to_double_err01 q : 0 <= q -> q <= 1 -> Qabs (to_double q - q) <= pow2 (-53).
Proof.
  intros H0 H1.
  destruct (Qle_lt_or_eq 0 q H0) as [Hpos | Hz].
  2: { rewrite (to_double_zero q) by (symmetry; exact Hz). rewrite <- Hz.
       setoid_replace (0 - 0) with 0 by ring. apply Qlt_le_weak, pow2_pos. }
  rewrite to_double_err_eq.
  set (s := fexp q). set (y := q / pow2 s).
  destruct (rne_close y) as [Hlo Hhi].
  assert (Hr : Qabs (inject_Z (rne y) - y) <= 1 # 2)
    by (apply Qabs_Qle_condition; split; lra).
  destruct (flog2_spec q Hpos) as [Hf _].
  assert (He : (flog2 q <= 0)%Z)
    by (apply pow2_le_inv; apply (Qle_trans _ q); [exact Hf | exact H1]).
  pose proof (fexp_pos q Hpos) as Hs. fold s in Hs.
  assert (Hp : pow2 s <= 2 * pow2 (-53)).
  { rewrite <- pow2_succ. apply pow2_le. lia. }
  pose proof (pow2_pos s). pose proof (Qabs_nonneg (inject_Z (rne y) - y)).
  nra.
Qed.



(** ** Claims about detect_drift *)

(** C1: every feature in the results of a check run with threshold [t] has
    [drift_detected = (p_value < t)]; the entry is the dict literal built
    once, from the KS outcome of that column and [t] alone. *)
Theorem drift_flag_is_pvalue_below_threshold ks_2samp e w rf pf t od r w' :
  detect_drift ks_2samp e w rf pf t od = (Ok r, w') ->
  forall c v, In (c, v) r ->
    drift_detected v = py_lt (p_value v) t /\
    exists ref prod stat p,
      fs e rf = Csv ref /\ fs e pf = Csv prod /\
      ks_2samp (dropna (df_get ref c)) (dropna (df_get prod c)) = Ok (stat, p) /\
      v = feature_result stat p t.
Proof.
  intros Hrun c v Hin.
  destruct (detect_drift_ok _ _ _ _ _ _ _ _ _ Hrun) as (ref & prod & Hr & Hp & Hl & _).
  destruct (drift_loop_entries _ _ _ _ _ _ _ Hl c v Hin)
    as [[] | (_ & _ & stat & p & Hks & ->)].
  split; [reflexivity |]. now exists ref, prod, stat, p.
Qed.

Lemma drift_flag_is_pvalue_below_threshold_witness :
  detect_drift toy_ks_2samp demo_env demo_world "data/bank_churn.csv"
    "data/production_data.csv" (1 # 20) "drift_reports"
  = (Ok demo_results, demo_world_after) /\
  (forall c v, In (c, v) demo_results ->
     drift_detected v = py_lt (p_value v) (1 # 20) /\
     exists ref prod stat p,
       fs demo_env "data/bank_churn.csv" = Csv ref /\
       fs demo_env "data/production_data.csv" = Csv prod /\
       toy_ks_2samp (dropna (df_get ref c)) (dropna (df_get prod c)) = Ok (stat, p) /\
       v = feature_result stat p (1 # 20)).
Proof.
  split; [reflexivity |].
  apply (drift_flag_is_pvalue_below_threshold toy_ks_2samp demo_env demo_world
           "data/bank_churn.csv" "data/production_data.csv" (1 # 20) "drift_reports"
           demo_results demo_world_after).
  reflexivity.
Defined.

(** C5: the features of the results are exactly the columns present in both
    datasets, minus the label column ["Exited"]. *)
Theorem result_features_are_shared_columns ks_2samp e w rf pf t od r w' ref prod :
  fs e rf = Csv ref -> fs e pf = Csv prod ->
  detect_drift ks_2samp e w rf pf t od = (Ok r, w') ->
  forall c, In c (map fst r) <->
            In c (columns ref) /\ In c (columns prod) /\ c <> "Exited".
Proof.
  intros Hr Hp Hrun c.
  destruct (detect_drift_ok _ _ _ _ _ _ _ _ _ Hrun) as (ref' & prod' & Hr' & Hp' & Hl & _).
  rewrite Hr in Hr'. rewrite Hp in Hp'. injection Hr' as <-. injection Hp' as <-.
  rewrite (drift_loop_keys _ _ _ _ _ _ _ Hl c), selected_spec. simpl. tauto.
Qed.

Lemma result_features_are_shared_columns_witness :
  (In "Age" (map fst demo_results) <->
   In "Age" (columns bank_ref) /\ In "Age" (columns bank_prod) /\ "Age" <> "Exited") /\
  (In "Tenure" (map fst demo_results) <->
   In "Tenure" (columns bank_ref) /\ In "Tenure" (columns bank_prod) /\ "Tenure" <> "Exited").
Proof.
  split;
  apply (result_features_are_shared_columns toy_ks_2samp demo_env demo_world
           "data/bank_churn.csv" "data/production_data.csv" (1 # 20) "drift_reports"
           demo_results demo_world_after bank_ref bank_prod); reflexivity.
Defined.

(** C7: with the same datasets, every feature flagged at threshold [t1] is
    also flagged at any larger threshold [t2]. *)
Theorem flagged_monotone_in_threshold ks_2samp e w1 w2 rf pf t1 t2 od r1 r2 w1' w2' :
  t1 < t2 ->
  detect_drift ks_2samp e w1 rf pf t1 od = (Ok r1, w1') ->
  detect_drift ks_2samp e w2 rf pf t2 od = (Ok r2, w2') ->
  forall c v1, In (c, v1) r1 -> drift_detected v1 = true ->
    exists v2, In (c, v2) r2 /\ drift_detected v2 = true.
Proof.
  intros Hlt Hrun1 Hrun2 c v1 Hin1 Hflag.
  destruct (detect_drift_ok _ _ _ _ _ _ _ _ _ Hrun1) as (ref & prod & Hr & Hp & Hl1 & _).
  destruct (detect_drift_ok _ _ _ _ _ _ _ _ _ Hrun2) as (ref' & prod' & Hr' & Hp' & Hl2 & _).
  rewrite Hr in Hr'. rewrite Hp in Hp'. injection Hr' as <-. injection Hp' as <-.
  destruct (drift_loop_entries _ _ _ _ _ _ _ Hl1 c v1 Hin1)
    as [[] | (Hc & Hsel & stat & p & Hks & ->)].
  assert (Hkey : In c (map fst r2)).
  { apply (drift_loop_keys _ _ _ _ _ _ _ Hl2 c). right. now split. }
  destruct (keys_In _ _ Hkey) as [v2 Hin2].
  exists v2. split; [exact Hin2 |].
  destruct (drift_loop_entries _ _ _ _ _ _ _ Hl2 c v2 Hin2)
    as [[] | (_ & _ & stat' & p' & Hks' & ->)].
  rewrite Hks in Hks'. injection Hks' as <- <-.
  simpl in *. apply py_lt_spec in Hflag. apply py_lt_spec.
  apply (Qlt_trans _ t1); assumption.
Qed.

Lemma flagged_monotone_in_threshold_witness :
  (1 # 20) < (1 # 10) /\
  forall c v1, In (c, v1) demo_results -> drift_detected v1 = true ->
    exists v2, In (c, v2) [("CreditScore", feature_result 0 1 (1 # 10));
                           ("Age", feature_result 1 (1 # 100) (1 # 10))] /\
               drift_detected v2 = true.
Proof.
  split; [reflexivity |].
  apply (flagged_monotone_in_threshold toy_ks_2samp demo_env demo_world demo_world
           "data/bank_churn.csv" "data/production_data.csv" (1 # 20) (1 # 10)
           "drift_reports" demo_results
           [("CreditScore", feature_result 0 1 (1 # 10));
            ("Age", feature_result 1 (1 # 100) (1 # 10))]
           demo_world_after
           {| clock := "20261017_120000";
              artifacts := [("drift_reports/drift_20261017_120000.json",
                             Report [("CreditScore", feature_result 0 1 (1 # 10));
                                     ("Age", feature_result 1 (1 # 100) (1 # 10))])];
              logs := [] |}); reflexivity.
Defined.

(** C10: the [type] field of every result is the constant ["numerical"],
    whatever the column holds. *)
Theorem result_type_is_numerical ks_2samp e w rf pf t od r w' :
  detect_drift ks_2samp e w rf pf t od = (Ok r, w') ->
  forall c v, In (c, v) r -> type v = "numerical".
Proof.
  intros Hrun c v Hin.
  destruct (detect_drift_ok _ _ _ _ _ _ _ _ _ Hrun) as (ref & prod & _ & _ & Hl & _).
  destruct (drift_loop_entries _ _ _ _ _ _ _ Hl c v Hin)
    as [[] | (_ & _ & stat & p & _ & ->)].
  reflexivity.
Qed.

Lemma result_type_is_numerical_witness :
  type (feature_result 1 (1 # 100) (1 # 20)) = "numerical".
Proof.
  apply (result_type_is_numerical toy_ks_2samp demo_env demo_world
           "data/bank_churn.csv" "data/production_data.csv" (1 # 20) "drift_reports"
           demo_results demo_world_after eq_refl "Age").
  right; left; reflexivity.
Defined.

(** ** Claims about log_drift_to_insights *)

Lemma risk_band_cases x :
  (risk_band x = LOW <-> x < 20) /\
  (risk_band x = MEDIUM <-> 20 <= x /\ x < 50) /\
  (risk_band x = HIGH <-> 50 <= x).
Proof.
  unfold risk_band.
  destruct (py_lt x 20) eqn:H20; [apply py_lt_spec in H20 | apply py_lt_false in H20];
  destruct (py_lt x 50) eqn:H50; [apply py_lt_spec in H50 | apply py_lt_false in H50
                                 | apply py_lt_spec in H50 | apply py_lt_false in H50].
  all: repeat split; intros; try reflexivity; try discriminate; try lra.
Qed.

(** C2: the logged drift percentage is [round(drifted / total * 100, 2)]
    computed in floats ([0] for an empty mapping), and the risk level is
    LOW below 20, MEDIUM from 20 up to (excluding) 50 and HIGH from 50; the
    floats 19.99 and 49.99 are LOW and MEDIUM, 20.0 and 50.0 are MEDIUM and
    HIGH. *)
Theorem aggregate_percentage_and_risk_band (r : results) :
  (exists percentage evs,
     log_drift_to_insights r = Ok (DriftDetection percentage (risk_band percentage) :: evs) /\
     percentage =
       (if Nat.eqb (length r) 0 then 0
        else round2 (py_mul (to_double (inject_Z (Z.of_nat (count_drifted r)) /
                                        inject_Z (Z.of_nat (length r)))) 100)) /\
     (risk_band percentage = LOW <-> percentage < 20) /\
     (risk_band percentage = MEDIUM <-> 20 <= percentage /\ percentage < 50) /\
     (risk_band percentage = HIGH <-> 50 <= percentage)) /\
  risk_band (to_double (1999 # 100)) = LOW /\ risk_band (to_double 20) = MEDIUM /\
  risk_band (to_double (4999 # 100)) = MEDIUM /\ risk_band (to_double 50) = HIGH.
Proof.
  split; [| repeat split; vm_compute; reflexivity].
  unfold log_drift_to_insights, py_div.
  destruct (Nat.eqb (length r) 0) eqn:Hz.
  - exists 0, (feature_events r). split; [reflexivity |]. split; [reflexivity |].
    apply risk_band_cases.
  - destruct (Qeq_bool (inject_Z (Z.of_nat (length r))) 0) eqn:Hq.
    + apply Qeq_bool_iff in Hq. unfold Qeq in Hq. simpl in Hq.
      apply Nat.eqb_neq in Hz. lia.
    + eexists; exists (feature_events r). split; [reflexivity |].
      split; [reflexivity |]. apply risk_band_cases.
Qed.

(** C8: on an empty results mapping the evaluator divides nothing and logs
    percentage 0 with risk LOW. *)
Theorem aggregate_empty_results_is_low :
  log_drift_to_insights [] = Ok [DriftDetection 0 LOW].
Proof. reflexivity. Qed.

(** ** Claims about failures of detect_drift and check_drift *)

(** What the two [except] clauses of check_drift answer: an HTTP error,
    404 exactly for a not-found error and 500 otherwise, with no file
    written. *)
Lemma handle_exc_spec ex w :
  exists code detail w',
    handle_exc ex w = (HTTPException code detail, w') /\
    artifacts w' = artifacts w /\ clock w' = clock w /\
    (code = 404%Z <-> exists p, ex = FileNotFoundError p) /\
    (code = 404%Z \/ code = 500%Z).
Proof.
  destruct ex; do 3 eexists; (split; [reflexivity |]); simpl;
    (split; [reflexivity |]); (split; [reflexivity |]);
    (split; [split; [intro H; try discriminate H; eauto | intros [p' Hp]; try discriminate Hp; reflexivity] |]);
    auto.
Qed.

Lemma check_drift_err ks_2samp e w t ex w1 :
  detect_drift ks_2samp e w "data/bank_churn.csv" "data/production_data.csv" t
    "drift_reports" = (Err ex, w1) ->
  check_drift ks_2samp e w t = handle_exc ex w1.
Proof. intro H. unfold check_drift. now rewrite H. Qed.

(** C4 (as stated, refuted): the loop computes two results, the report
    directory is read-only, and the caller gets the write error instead of
    the results; the endpoint answers 500.  When the disk fills up during
    [json.dump], the results are lost too and the report file is left
    incomplete. *)
Lemma write_failure_keeps_results_counterexample :
  drift_loop toy_ks_2samp (columns bank_ref) bank_ref bank_prod (1 # 20) [] = Ok demo_results /\
  demo_results <> [] /\
  detect_drift toy_ks_2samp readonly_env demo_world "data/bank_churn.csv"
    "data/production_data.csv" (1 # 20) "drift_reports"
  = (Err (PermissionError "drift_reports/drift_20261017_120000.json"), demo_world) /\
  check_drift toy_ks_2samp readonly_env demo_world (1 # 20)
  = (HTTPException 500 "Drift check failed", add_logs demo_world [DriftError]) /\
  fst (check_drift toy_ks_2samp disk_full_env demo_world (1 # 20))
  = HTTPException 500 "Drift check failed" /\
  artifacts (snd (check_drift toy_ks_2samp disk_full_env demo_world (1 # 20)))
  = [("drift_reports/drift_20261017_120000.json", Incomplete)].
Proof.
  split; [reflexivity |]. split; [discriminate |]. repeat split; reflexivity.
Qed.

(** C4 (amended): when writing the JSON report fails, detect_drift raises
    and returns no results.  Once reading the inputs and the loop
    succeeded, the exception is the write error itself; if [open] failed no
    file is touched, and if [open] succeeded but [json.dump] (or closing the
    file) failed, the report file is left created or truncated with
    incomplete content.  check_drift then answers with an HTTP error (404
    for a not-found error, 500 otherwise) instead of the results, and no
    complete report is recorded. *)
Theorem write_failure_discards_results ks_2samp e w rf pf t od ex :
  write_file e (report_path od (clock w)) = OpenFailed ex \/
  write_file e (report_path od (clock w)) = DumpFailed ex ->
  (exists ex' w', detect_drift ks_2samp e w rf pf t od = (Err ex', w') /\
     clock w' = clock w /\ logs w' = logs w /\
     (artifacts w' = artifacts w \/
      artifacts w' = (report_path od (clock w), Incomplete) :: artifacts w)) /\
  (forall ref prod r,
     makedirs e od = None -> fs e rf = Csv ref -> fs e pf = Csv prod ->
     drift_loop ks_2samp (columns ref) ref prod t [] = Ok r ->
     (write_file e (report_path od (clock w)) = OpenFailed ex ->
      detect_drift ks_2samp e w rf pf t od = (Err ex, w)) /\
     (write_file e (report_path od (clock w)) = DumpFailed ex ->
      detect_drift ks_2samp e w rf pf t od
      = (Err ex, {| clock := clock w;
                    artifacts := (report_path od (clock w), Incomplete) :: artifacts w;
                    logs := logs w |}))) /\
  (od = "drift_reports" ->
   exists ex' code detail w',
     fst (detect_drift ks_2samp e w "data/bank_churn.csv" "data/production_data.csv" t od)
       = Err ex' /\
     check_drift ks_2samp e w t = (HTTPException code detail, w') /\
     (code = 404%Z <-> exists p, ex' = FileNotFoundError p) /\
     (code = 404%Z \/ code = 500%Z) /\
     (artifacts w' = artifacts w \/
      artifacts w' = (report_path od (clock w), Incomplete) :: artifacts w)).
Proof.
  intro Hw.
  assert (Hdd : forall rf pf, exists ex' w',
             detect_drift ks_2samp e w rf pf t od = (Err ex', w') /\
             clock w' = clock w /\ logs w' = logs w /\
             (artifacts w' = artifacts w \/
              artifacts w' = (report_path od (clock w), Incomplete) :: artifacts w)).
  { intros rf' pf'. unfold detect_drift, read_csv.
    destruct (makedirs e od) as [ex0 |]; [exists ex0, w; auto |].
    destruct (fs e rf') as [| ex0 | ref]; [eexists; exists w; auto | exists ex0, w; auto |].
    destruct (fs e pf') as [| ex0 | prod]; [eexists; exists w; auto | exists ex0, w; auto |].
    destruct (drift_loop _ _ _ _ _ _) as [r | ex0]; [| exists ex0, w; auto].
    destruct Hw as [Hw | Hw]; rewrite Hw.
    - exists ex, w; auto.
    - eexists ex, _. split; [reflexivity |]. simpl. auto. }
  split; [apply Hdd |]. split.
  - intros ref prod r Hm Hr Hp Hl. unfold detect_drift, read_csv.
    rewrite Hm, Hr, Hp, Hl. split; intro Hw'; now rewrite Hw'.
  - intros ->.
    destruct (Hdd "data/bank_churn.csv" "data/production_data.csv")
      as (ex' & w1 & Hrun & Hc & _ & Ha).
    destruct (handle_exc_spec ex' w1) as (code & detail & w2 & Hh & Ha2 & _ & H404 & Hcode).
    exists ex', code, detail, w2. rewrite Hrun. split; [reflexivity |].
    rewrite (check_drift_err _ _ _ _ _ _ Hrun), Hh. split; [reflexivity |].
    split; [exact H404 |]. split; [exact Hcode |]. rewrite Ha2. exact Ha.
Qed.

Lemma write_failure_discards_results_witness :
  exists r,
    drift_loop toy_ks_2samp (columns bank_ref) bank_ref bank_prod (1 # 20) [] = Ok r /\
    detect_drift toy_ks_2samp disk_full_env demo_world "data/bank_churn.csv"
      "data/production_data.csv" (1 # 20) "drift_reports"
    = (Err (OSError "[Errno 28] No space left on device"),
       {| clock := clock demo_world;
          artifacts := (report_path "drift_reports" (clock demo_world), Incomplete)
                       :: artifacts demo_world;
          logs := logs demo_world |}).
Proof.
  exists demo_results. split; [reflexivity |].
  destruct (write_failure_discards_results toy_ks_2samp disk_full_env demo_world
              "data/bank_churn.csv" "data/production_data.csv" (1 # 20) "drift_reports"
              (OSError "[Errno 28] No space left on device")) as [_ [H _]];
    [right; reflexivity |].
  apply (proj2 (H bank_ref bank_prod demo_results eq_refl eq_refl eq_refl eq_refl)).
  reflexivity.
Defined.




Lemma count_drifted_le r : (count_drifted r <= length r)%nat.
Proof. unfold count_drifted. apply filter_length_le. Qed.

Lemma int_below_strict (m k : Z) (y : Q) :
  inject_Z m <= y + (1 # 2) -> y < inject_Z k - (1 # 2) -> (m < k)%Z.
Proof.
  intros H1 H2. assert (H : inject_Z m < inject_Z k) by lra.
  rewrite <- Zlt_Qlt in H. exact H.
Qed.

(** ** Further properties of the drift check *)

(** Python's [round(x, 2)] against an integer number of hundredths. *)
Lemma round2_ge x K :
  (0 <= K)%Z -> inject_Z K <= x * 100 -> to_double (Qmake K 100) <= round2 x.
Proof.
  intros HK Hx. unfold round2.
  destruct (rne_close (x * 100)) as [Hlo _].
  pose proof (int_above _ K _ Hlo Hx) as Hm.
  apply to_double_mono; unfold Qle; simpl; lia.
Qed.

Lemma round2_le x K :
  0 <= x -> x * 100 < inject_Z K + (1 # 2) -> round2 x <= to_double (Qmake K 100).
Proof.
  intros Hx HK. unfold round2.
  destruct (rne_close (x * 100)) as [Hlo Hhi].
  assert (Hm : (rne (x * 100) < K + 1)%Z).
  { apply (int_below_strict _ _ _ Hhi). rewrite inject_Z_plus.
    change (inject_Z 1) with 1. lra. }
  assert (H0 : (0 <= rne (x * 100))%Z).
  { apply (int_above _ 0 _ Hlo). change (inject_Z 0) with 0. lra. }
  apply to_double_mono; unfold Qle; simpl; lia.
Qed.

Lemma ratio_Q (d : Z) (p : positive) : inject_Z d / inject_Z (Zpos p) == d # p.
Proof. unfold Qeq, Qdiv, Qmult, Qinv. simpl. lia. Qed.

(** [drifted / total * 100] in floats, for [0 <= drifted <= total]. *)
Lemma drift_ratio_bounds (D : Z) (P : positive) :
  (0 <= D <= Zpos P)%Z ->
  0 <= py_mul (to_double (inject_Z D / inject_Z (Zpos P))) 100 /\
  py_mul (to_double (inject_Z D / inject_Z (Zpos P))) 100 <= 100.
Proof.
  intros HD. unfold py_mul.
  assert (Hq0 : 0 <= inject_Z D / inject_Z (Zpos P)).
  { rewrite ratio_Q. unfold Qle. simpl. lia. }
  assert (Hq1 : inject_Z D / inject_Z (Zpos P) <= 1).
  { rewrite ratio_Q. unfold Qle. simpl. lia. }
  pose proof (to_double_nonneg _ Hq0) as H0.
  pose proof (to_double_mono _ _ Hq0 Hq1) as H1.
  assert (E1 : to_double 1 == 1) by (vm_compute; reflexivity).
  assert (E100 : to_double 100 == 100) by (vm_compute; reflexivity).
  split.
  - apply to_double_nonneg. lra.
  - assert (H2 : to_double (to_double (inject_Z D / inject_Z (Zpos P)) * 100) <= to_double 100)
      by (apply to_double_mono; lra).
    lra.
Qed.

(** Rounding the float percentage to two decimals never moves it across
    the band boundary [T] when the ratio below [T / 100] is at most [B]. *)
Lemma round2_band_agrees (D : Z) (P : positive) (T B : Q) (K L : Z) :
  (0 <= D)%Z -> (0 <= L)%Z ->
  inject_Z L <= T * 100 -> T <= to_double (Qmake L 100) ->
  T <= to_double (to_double (T / 100) * 100) ->
  (inject_Z D / inject_Z (Zpos P) < T / 100 -> inject_Z D / inject_Z (Zpos P) <= B) ->
  to_double (to_double B * 100) * 100 < inject_Z K + (1 # 2) ->
  to_double (Qmake K 100) < T ->
  let x := py_mul (to_double (inject_Z D / inject_Z (Zpos P))) 100 in
  py_lt (round2 x) T = py_lt x T.
Proof.
  intros HD HL HLT HTL HT HB HK HKT x.
  assert (Hq0 : 0 <= inject_Z D / inject_Z (Zpos P)).
  { rewrite ratio_Q. unfold Qle. simpl. lia. }
  pose proof (to_double_nonneg _ Hq0) as Hfq0.
  assert (Hx0 : 0 <= x) by (apply to_double_nonneg; lra).
  destruct (py_lt x T) eqn:E; [apply py_lt_spec in E | apply py_lt_false in E].
  - apply py_lt_spec.
    assert (Hr : inject_Z D / inject_Z (Zpos P) < T / 100).
    { apply Qnot_le_lt. intro Hge.
      assert (HL0 : 0 <= inject_Z L).
      { change 0 with (inject_Z 0). rewrite <- Zle_Qle. exact HL. }
      assert (H : 0 <= T / 100) by (apply Qle_shift_div_l; [reflexivity | lra]).
      pose proof (to_double_mono _ _ H Hge) as Hm.
      assert (Hm' : to_double (T / 100) * 100 <= to_double (inject_Z D / inject_Z (Zpos P)) * 100)
        by lra.
      pose proof (to_double_nonneg _ H) as H'.
      assert (H'' : 0 <= to_double (T / 100) * 100) by lra.
      pose proof (to_double_mono _ _ H'' Hm') as Hm2.
      unfold x, py_mul in E. lra. }
    pose proof (HB Hr) as HqB.
    pose proof (to_double_mono _ _ Hq0 HqB) as H1.
    assert (H1' : to_double (inject_Z D / inject_Z (Zpos P)) * 100 <= to_double B * 100) by lra.
    assert (H1'' : 0 <= to_double (inject_Z D / inject_Z (Zpos P)) * 100) by lra.
    pose proof (to_double_mono _ _ H1'' H1') as H2.
    assert (Hx : x * 100 < inject_Z K + (1 # 2)) by (unfold x, py_mul; lra).
    pose proof (round2_le x K Hx0 Hx). lra.
  - apply py_lt_false.
    assert (Hx : inject_Z L <= x * 100) by lra.
    pose proof (round2_ge x L HL Hx). lra.
Qed.

(** The logged drift percentage always lies between 0 and 100. *)
Theorem drift_percentage_between_0_and_100 (r : results) :
  exists percentage evs,
    log_drift_to_insights r = Ok (DriftDetection percentage (risk_band percentage) :: evs) /\
    0 <= percentage /\ percentage <= 100.
Proof.
  unfold log_drift_to_insights, py_div.
  pose proof (count_drifted_le r) as Hle.
  destruct (length r) as [| n] eqn:Hn.
  - simpl. do 2 eexists. split; [reflexivity |]. split; discriminate.
  - simpl Nat.eqb. cbv iota.
    destruct (Qeq_bool (inject_Z (Z.of_nat (S n))) 0) eqn:Hq.
    { apply Qeq_bool_iff in Hq. unfold Qeq in Hq. simpl in Hq. lia. }
    do 2 eexists. split; [reflexivity |].
    change (Z.of_nat (S n)) with (Zpos (Pos.of_succ_nat n)).
    destruct (drift_ratio_bounds (Z.of_nat (count_drifted r)) (Pos.of_succ_nat n))
      as [H0 H1]; [lia |].
    split.
    + assert (E : to_double (Qmake 0 100) == 0) by (vm_compute; reflexivity).
      assert (H2 : to_double (Qmake 0 100) <= round2 (py_mul (to_double
                     (inject_Z (Z.of_nat (count_drifted r)) /
                      inject_Z (Z.pos (Pos.of_succ_nat n)))) 100)).
      { apply round2_ge; [lia |]. change (inject_Z 0) with 0. lra. }
      lra.
    + assert (E : to_double (Qmake 10000 100) == 100) by (vm_compute; reflexivity).
      assert (H2 : round2 (py_mul (to_double
                     (inject_Z (Z.of_nat (count_drifted r)) /
                      inject_Z (Z.pos (Pos.of_succ_nat n)))) 100) <= to_double (Qmake 10000 100)).
      { apply round2_le; [exact H0 |].
        assert (inject_Z 10000 = 10000) as -> by reflexivity. lra. }
      lra.
Qed.

Lemma log_drift_shape (r : results) :
  exists percentage,
    log_drift_to_insights r
    = Ok (DriftDetection percentage (risk_band percentage) :: feature_events r) /\
    percentage =
      (if Nat.eqb (length r) 0 then 0
       else round2 (py_mul (to_double (inject_Z (Z.of_nat (count_drifted r)) /
                                       inject_Z (Z.of_nat (length r)))) 100)).
Proof.
  unfold log_drift_to_insights, py_div.
  destruct (Nat.eqb (length r) 0) eqn:Hz; [now eexists |].
  destruct (Qeq_bool (inject_Z (Z.of_nat (length r))) 0) eqn:Hq.
  - apply Qeq_bool_iff in Hq. unfold Qeq in Hq. simpl in Hq.
    apply Nat.eqb_neq in Hz. lia.
  - now eexists.
Qed.

Lemma check_drift_success_inv ks_2samp e w t n d r w' :
  check_drift ks_2samp e w t = (Success n d r, w') ->
  exists percentage w0,
    detect_drift ks_2samp e w "data/bank_churn.csv" "data/production_data.csv" t
      "drift_reports" = (Ok r, w0) /\
    n = length r /\ d = count_drifted r /\
    percentage =
      (if Nat.eqb (length r) 0 then 0
       else round2 (py_mul (to_double (inject_Z (Z.of_nat (count_drifted r)) /
                                       inject_Z (Z.of_nat (length r)))) 100)) /\
    w' = {| clock := clock w;
            artifacts := (report_path "drift_reports" (clock w), Report r) :: artifacts w;
            logs := logs w ++ DriftDetection percentage (risk_band percentage)
                              :: feature_events r |}.
Proof.
  unfold check_drift.
  destruct (detect_drift ks_2samp e w _ _ t _) as [[r0 | ex] w0] eqn:Hdd.
  - pose proof Hdd as Hdd'.
    apply detect_drift_ok in Hdd' as (ref & prod & _ & _ & _ & ->).
    destruct (log_drift_shape r0) as (pct & Hlog & Hpct). rewrite Hlog.
    intro H. injection H as <- <- <- <-. exists pct. eexists. split; [reflexivity |]. auto.
  - unfold handle_exc. destruct ex; discriminate.
Qed.

(** A successful /drift/check reports [features_drifted <= features_analyzed],
    writes the report with its results, and logs one drift_detection record
    followed by one feature_drift record per feature whose p-value is below
    the threshold, in result order, carrying that feature's name, p-value
    and statistic. *)
Theorem check_drift_success_logs ks_2samp e w t n d r w' :
  check_drift ks_2samp e w t = (Success n d r, w') ->
  (d <= n)%nat /\
  artifacts w' = (report_path "drift_reports" (clock w), Report r) :: artifacts w /\
  exists percentage,
    logs w' = (logs w ++ DriftDetection percentage (risk_band percentage) ::
               map (fun kv => FeatureDrift (fst kv) (p_value (snd kv)) (statistic (snd kv))
                                           "numerical")
                   (filter (fun kv => py_lt (p_value (snd kv)) t) r))%list /\
    d = length (filter (fun kv => py_lt (p_value (snd kv)) t) r).
Proof.
  intro H. destruct (check_drift_success_inv _ _ _ _ _ _ _ _ H)
    as (pct & w0 & Hrun & -> & -> & _ & ->).
  destruct (detect_drift_ok _ _ _ _ _ _ _ _ _ Hrun) as (ref & prod & _ & _ & Hl & _).
  assert (Hf : filter (fun kv => drift_detected (snd kv)) r
               = filter (fun kv => py_lt (p_value (snd kv)) t) r).
  { apply filter_ext_in. intros [c v] Hin. simpl.
    destruct (drift_loop_entries _ _ _ _ _ _ _ Hl c v Hin)
      as [[] | (_ & _ & stat & p & _ & ->)].
    reflexivity. }
  split; [apply count_drifted_le |]. split; [reflexivity |].
  exists pct. simpl. unfold feature_events, count_drifted. rewrite Hf.
  split; [| reflexivity].
  f_equal. f_equal. apply map_ext_in. intros [c v] Hin.
  apply filter_In in Hin as [Hin _]. simpl.
  destruct (drift_loop_entries _ _ _ _ _ _ _ Hl c v Hin)
    as [[] | (_ & _ & stat & p & _ & ->)].
  reflexivity.
Qed.

Lemma check_drift_success_logs_witness :
  exists w',
    check_drift toy_ks_2samp demo_env demo_world (1 # 20) = (Success 2 1 demo_results, w') /\
    ((1 <= 2)%nat /\
     artifacts w' = (report_path "drift_reports" (clock demo_world), Report demo_results)
                    :: artifacts demo_world /\
     exists percentage,
       logs w' = (logs demo_world ++ DriftDetection percentage (risk_band percentage) ::
                  map (fun kv => FeatureDrift (fst kv) (p_value (snd kv)) (statistic (snd kv))
                                              "numerical")
                      (filter (fun kv => py_lt (p_value (snd kv)) (1 # 20)) demo_results))%list /\
       1%nat = length (filter (fun kv => py_lt (p_value (snd kv)) (1 # 20)) demo_results)).
Proof.
  eexists. split; [reflexivity |].
  apply (check_drift_success_logs toy_ks_2samp demo_env demo_world (1 # 20)).
  reflexivity.
Defined.

(** The chart of generate_drift_report, drawn from the results of a check
    run at threshold [t]: one bar per feature in result order, red exactly
    when [p_value < t], and the reference line at 0.05 whatever [t] is. *)
Theorem drift_chart_colors_follow_threshold ks_2samp e w rf pf t od r w' e' now od'
    path chart :
  detect_drift ks_2samp e w rf pf t od = (Ok r, w') ->
  generate_drift_report e' now r od' = Ok (path, chart) ->
  path = od' ++ "/drift_report_" ++ now ++ ".png" /\
  bar_features chart = map fst r /\
  bar_p_values chart = map (fun kv => p_value (snd kv)) r /\
  bar_colors chart = map (fun kv => if py_lt (p_value (snd kv)) t then "red" else "green") r /\
  threshold_line chart = 1 # 20.
Proof.
  intros Hrun Hgen.
  destruct (detect_drift_ok _ _ _ _ _ _ _ _ _ Hrun) as (ref & prod & _ & _ & Hl & _).
  unfold generate_drift_report in Hgen.
  destruct (makedirs e' od'); [discriminate |].
  destruct (write_file e' _); [| discriminate | discriminate].
  injection Hgen as <- <-. simpl.
  split; [reflexivity |]. split; [reflexivity |]. split; [reflexivity |].
  split; [| reflexivity].
  rewrite map_map. apply map_ext_in. intros [c v] Hin. simpl.
  destruct (drift_loop_entries _ _ _ _ _ _ _ Hl c v Hin)
    as [[] | (_ & _ & stat & p & _ & ->)].
  reflexivity.
Qed.

(** At threshold 0.1 the run flags [Age] (p = 0.01); the line stays at 0.05. *)
Lemma drift_chart_colors_follow_threshold_witness :
  exists w' path chart,
    detect_drift toy_ks_2samp demo_env demo_world "data/bank_churn.csv"
      "data/production_data.csv" (1 # 10) "drift_reports" = (Ok demo_results_t10, w') /\
    generate_drift_report demo_env "20261017_120000" demo_results_t10 "drift_reports"
    = Ok (path, chart) /\
    (path = "drift_reports" ++ "/drift_report_" ++ "20261017_120000" ++ ".png" /\
     bar_features chart = map fst demo_results_t10 /\
     bar_p_values chart = map (fun kv => p_value (snd kv)) demo_results_t10 /\
     bar_colors chart = map (fun kv => if py_lt (p_value (snd kv)) (1 # 10) then "red" else "green")
                          demo_results_t10 /\
     threshold_line chart = 1 # 20).
Proof.
  do 3 eexists. split; [reflexivity |]. split; [reflexivity |].
  eapply (drift_chart_colors_follow_threshold toy_ks_2samp demo_env demo_world
           "data/bank_churn.csv" "data/production_data.csv" (1 # 10) "drift_reports"
           _ _ demo_env "20261017_120000" "drift_reports"); reflexivity.
Defined.

Example drift_chart_demo :
  match generate_drift_report demo_env "20261017_120000" demo_results_t10 "drift_reports" with
  | Ok (_, chart) => bar_colors chart = ["green"; "red"] /\ threshold_line chart = 1 # 20
  | Err _ => False
  end.
Proof. split; reflexivity. Qed.

(** The Streamlit drift panel recomputes the percentage in floats from the
    response counts without rounding it to two decimals; with fewer than
    4000 analysed features the band it shows is the risk level the API
    logged for the same check. *)
Theorem panel_risk_matches_logged_risk ks_2samp e w t n d r w' :
  check_drift ks_2samp e w t = (Success n d r, w') -> (n < 4000)%nat ->
  exists percentage evs,
    logs w' = (logs w ++ DriftDetection percentage (risk_band percentage) :: evs)%list /\
    Client.panel_risk (Success n d r)
    = Some (match risk_band percentage with
            | LOW => "🟢 LOW" | MEDIUM => "🟡 MEDIUM" | HIGH => "🔴 HIGH" end).
Proof.
  intros H Hn. destruct (check_drift_success_inv _ _ _ _ _ _ _ _ H)
    as (pct & w0 & _ & -> & -> & Hpct & ->).
  exists pct, (feature_events r). split; [reflexivity |].
  unfold Client.panel_risk, Client.drift_pct, Client.risk_label. f_equal.
  pose proof (count_drifted_le r) as Hle.
  destruct (length r) as [| k] eqn:Hk.
  - simpl in Hpct. subst pct. reflexivity.
  - simpl Nat.eqb in Hpct. cbv iota in Hpct. subst pct.
    change ((0 <? S k)%nat) with true. cbv iota.
    assert (HD : (0 <= Z.of_nat (count_drifted r))%Z) by lia.
    assert (HP : (Z.of_nat (S k) < 4000)%Z) by lia.
    change (Z.of_nat (S k)) with (Zpos (Pos.of_succ_nat k)) in *.
    set (D := Z.of_nat (count_drifted r)) in *.
    set (P := Pos.of_succ_nat k) in *.
    assert (E20 : py_lt (round2 (py_mul (to_double (inject_Z D / inject_Z (Zpos P))) 100)) 20
                  = py_lt (py_mul (to_double (inject_Z D / inject_Z (Zpos P))) 100) 20).
    { apply (round2_band_agrees D P 20 (3998 # 19995) 1999 2000 HD);
        try (vm_compute; first [reflexivity | discriminate]).
      intro Hr. rewrite ratio_Q in Hr |- *. unfold Qlt, Qle in *. simpl in *. lia. }
    assert (E50 : py_lt (round2 (py_mul (to_double (inject_Z D / inject_Z (Zpos P))) 100)) 50
                  = py_lt (py_mul (to_double (inject_Z D / inject_Z (Zpos P))) 100) 50).
    { apply (round2_band_agrees D P 50 (1999 # 3999) 4999 5000 HD);
        try (vm_compute; first [reflexivity | discriminate]).
      intro Hr. rewrite ratio_Q in Hr |- *. unfold Qlt, Qle in *. simpl in *. lia. }
    unfold risk_band. rewrite E20, E50.
    destruct (py_lt (py_mul (to_double (inject_Z D / inject_Z (Zpos P))) 100) 20);
      [reflexivity |].
    destruct (py_lt (py_mul (to_double (inject_Z D / inject_Z (Zpos P))) 100) 50);
      reflexivity.
Qed.

Lemma panel_risk_matches_logged_risk_witness :
  exists w',
    check_drift toy_ks_2samp demo_env demo_world (1 # 20) = (Success 2 1 demo_results, w') /\
    (2 < 4000)%nat /\
    exists percentage evs,
      logs w' = (logs demo_world ++ DriftDetection percentage (risk_band percentage) :: evs)%list /\
      Client.panel_risk (Success 2 1 demo_results)
      = Some (match risk_band percentage with
              | LOW => "🟢 LOW" | MEDIUM => "🟡 MEDIUM" | HIGH => "🔴 HIGH" end).
Proof.
  eexists. split; [reflexivity |]. split; [lia |].
  apply (panel_risk_matches_logged_risk toy_ks_2samp demo_env demo_world (1 # 20));
    [reflexivity | lia].
Defined.

(** Why the bound: with 4001 features of which 800 drifted the API rounds
    19.995... up to 20.0 (MEDIUM) while the panel shows LOW. *)
Example panel_risk_4001_demo :
  risk_band (round2 (py_mul (to_double (inject_Z 800 / inject_Z 4001)) 100)) = MEDIUM /\
  Client.risk_label (Client.drift_pct 4001 800) = "🟢 LOW".
Proof. split; vm_compute; reflexivity. Qed.

(** ** Properties of the prediction endpoints *)

Lemma predict_ok_inv m body resp logs :
  Api.predict (Some m) body = (Api.HTTP200 resp, logs) ->
  exists f proba,
    Api.parse_customer body = Some f /\ Api.churn_proba m f = Api.Done proba /\
    resp = {| Api.churn_probability := Api.round4 proba;
              Api.prediction := Api.prediction_of proba;
              Api.risk_level := Api.risk_of proba |} /\
    logs = [Api.Prediction proba (Api.prediction_of proba) (Api.risk_of proba)].
Proof.
  unfold Api.predict.
  destruct (Api.parse_customer body) as [f |]; [| discriminate].
  destruct (Api.churn_proba m f) as [proba | err] eqn:Hp; [| discriminate].
  intro H. injection H as <- <-. now exists f, proba.
Qed.

(** A /predict answer is internally consistent: [prediction] is 1 exactly
    when the model's probability exceeds 0.5, [risk_level] is Low below the
    float 0.3, Medium from 0.3 below the float 0.7 and High from 0.7 (the
    comparisons are against the binary64 values of the literals 0.3 and
    0.7), so a High risk always comes with prediction 1 and a Low risk with
    prediction 0. *)
Theorem predict_labels_consistent m body resp logs :
  Api.predict (Some m) body = (Api.HTTP200 resp, logs) ->
  exists f proba,
    Api.parse_customer body = Some f /\ Api.churn_proba m f = Api.Done proba /\
    logs = [Api.Prediction proba (Api.prediction resp) (Api.risk_level resp)] /\
    (Api.prediction resp = 1%Z <-> 1 # 2 < proba) /\
    (Api.prediction resp = 0%Z <-> proba <= 1 # 2) /\
    (Api.risk_level resp = "Low" <-> proba < to_double (3 # 10)) /\
    (Api.risk_level resp = "Medium" <->
       to_double (3 # 10) <= proba /\ proba < to_double (7 # 10)) /\
    (Api.risk_level resp = "High" <-> to_double (7 # 10) <= proba) /\
    (Api.risk_level resp = "High" -> Api.prediction resp = 1%Z) /\
    (Api.risk_level resp = "Low" -> Api.prediction resp = 0%Z).
Proof.
  intro H. destruct (predict_ok_inv _ _ _ _ H) as (f & proba & Hf & Hp & -> & ->).
  exists f, proba. simpl. do 3 (split; [assumption || reflexivity |]).
  assert (H3 : to_double (3 # 10) <= 1 # 2) by (vm_compute; discriminate).
  assert (H7 : 1 # 2 < to_double (7 # 10)) by (vm_compute; reflexivity).
  unfold Api.prediction_of, Api.risk_of.
  set (t3 := to_double (3 # 10)) in *. set (t7 := to_double (7 # 10)) in *.
  clearbody t3 t7.
  destruct (py_lt (1 # 2) proba) eqn:E5; [apply py_lt_spec in E5 | apply py_lt_false in E5];
  destruct (py_lt proba t3) eqn:E3; [apply py_lt_spec in E3 | apply py_lt_false in E3
                                     | apply py_lt_spec in E3 | apply py_lt_false in E3];
  try (destruct (py_lt proba t7) eqn:E7;
       [apply py_lt_spec in E7 | apply py_lt_false in E7]).
  all: repeat split; intros; try reflexivity; try discriminate; try lra.
Qed.

Lemma predict_labels_consistent_witness :
  exists resp logs,
    Api.predict (Some mock_model) test_customer = (Api.HTTP200 resp, logs) /\
    exists f proba,
      Api.parse_customer test_customer = Some f /\ Api.churn_proba mock_model f = Api.Done proba /\
      logs = [Api.Prediction proba (Api.prediction resp) (Api.risk_level resp)] /\
      (Api.prediction resp = 1%Z <-> 1 # 2 < proba) /\
      (Api.prediction resp = 0%Z <-> proba <= 1 # 2) /\
      (Api.risk_level resp = "Low" <-> proba < to_double (3 # 10)) /\
      (Api.risk_level resp = "Medium" <->
         to_double (3 # 10) <= proba /\ proba < to_double (7 # 10)) /\
      (Api.risk_level resp = "High" <-> to_double (7 # 10) <= proba) /\
      (Api.risk_level resp = "High" -> Api.prediction resp = 1%Z) /\
      (Api.risk_level resp = "Low" -> Api.prediction resp = 0%Z).
Proof.
  do 2 eexists. split; [reflexivity |].
  eapply (predict_labels_consistent mock_model test_customer). reflexivity.
Defined.

(** The returned [churn_probability] is [round(proba, 4)] of the model's
    probability [proba].  When [proba] lies in [0, 1], so does the returned
    value, and it is within 0.00005 of [proba] up to the binary64 rounding
    of the four-decimal result (at most 2^-53). *)
Theorem predict_probability_rounding m body resp logs :
  Api.predict (Some m) body = (Api.HTTP200 resp, logs) ->
  exists f proba,
    Api.parse_customer body = Some f /\ Api.churn_proba m f = Api.Done proba /\
    Api.churn_probability resp = Api.round4 proba /\
    (0 <= proba -> proba <= 1 ->
     0 <= Api.churn_probability resp /\ Api.churn_probability resp <= 1 /\
     proba - (1 # 20000) - pow2 (-53) <= Api.churn_probability resp /\
     Api.churn_probability resp <= proba + (1 # 20000) + pow2 (-53)).
Proof.
  intro H. destruct (predict_ok_inv _ _ _ _ H) as (f & proba & Hf & Hp & -> & _).
  exists f, proba. split; [exact Hf |]. split; [exact Hp |]. cbn [Api.churn_probability].
  split; [reflexivity |]. intros H0 H1. unfold Api.round4.
  destruct (rne_close (proba * 10000)) as [Hlo Hhi].
  set (k := rne (proba * 10000)) in *.
  assert (Hq : Qmake k 10000 == inject_Z k / 10000).
  { unfold Qeq, Qdiv, Qmult, Qinv. simpl. lia. }
  assert (Hk0 : (0 <= k)%Z).
  { apply (int_above k 0 _ Hlo). change (inject_Z 0) with 0. lra. }
  assert (Hk1 : (k <= 10000)%Z).
  { apply (int_below k 10000 _ Hhi). change (inject_Z 10000) with 10000. lra. }
  assert (Hy0 : 0 <= Qmake k 10000) by (unfold Qle; simpl; lia).
  assert (Hy1 : Qmake k 10000 <= 1) by (unfold Qle; simpl; lia).
  assert (Hylo : proba - (1 # 20000) <= Qmake k 10000).
  { rewrite Hq. apply Qle_shift_div_l; [reflexivity | lra]. }
  assert (Hyhi : Qmake k 10000 <= proba + (1 # 20000)).
  { rewrite Hq. apply Qle_shift_div_r; [reflexivity | lra]. }
  pose proof (to_double_err01 _ Hy0 Hy1) as Herr.
  destruct (Qabs_ge (to_double (Qmake k 10000) - Qmake k 10000)) as [A1 A2].
  pose proof (to_double_nonneg _ Hy0) as Hd0.
  pose proof (to_double_mono _ _ Hy0 Hy1) as Hd1.
  assert (E1 : to_double 1 == 1) by (vm_compute; reflexivity).
  repeat split; lra.
Qed.

Lemma predict_probability_rounding_witness :
  exists resp logs,
    Api.predict (Some mock_model) test_customer = (Api.HTTP200 resp, logs) /\
    exists f proba,
      Api.parse_customer test_customer = Some f /\
      Api.churn_proba mock_model f = Api.Done proba /\
      Api.churn_probability resp = Api.round4 proba /\
      (0 <= proba -> proba <= 1 ->
       0 <= Api.churn_probability resp /\ Api.churn_probability resp <= 1 /\
       proba - (1 # 20000) - pow2 (-53) <= Api.churn_probability resp /\
       Api.churn_probability resp <= proba + (1 # 20000) + pow2 (-53)).
Proof.
  do 2 eexists. split; [reflexivity |].
  eapply (predict_probability_rounding mock_model test_customer). reflexivity.
Defined.

Lemma batch_loop_agrees m : forall bodies fs items,
  Api.parse_customers bodies = Some fs -> Api.batch_loop m fs = Api.Done items ->
  length items = length bodies /\
  forall i body, nth_error bodies i = Some body ->
    exists resp plogs,
      Api.predict (Some m) body = (Api.HTTP200 resp, plogs) /\
      nth_error items i =
        Some {| Api.item_churn_probability := Api.churn_probability resp;
                Api.item_prediction := Api.prediction resp |}.
Proof.
  induction bodies as [| b rest IH]; intros fs items Hp Hl.
  - injection Hp as <-. injection Hl as <-. split; [reflexivity |].
    intros [|i] body Hn; discriminate.
  - simpl in Hp.
    destruct (Api.parse_customer b) as [f |] eqn:Hb; [| discriminate].
    destruct (Api.parse_customers rest) as [fs' |] eqn:Hr; [| discriminate].
    injection Hp as <-. simpl in Hl.
    destruct (Api.churn_proba m f) as [proba | err] eqn:Hc; [| discriminate].
    destruct (Api.batch_loop m fs') as [items' | err] eqn:Hl'; [| discriminate].
    injection Hl as <-. destruct (IH fs' items' eq_refl Hl') as [Hlen Hall].
    split; [simpl; congruence |].
    intros [|i] body Hn; simpl in Hn.
    + injection Hn as <-. unfold Api.predict. rewrite Hb, Hc.
      do 2 eexists. split; reflexivity.
    + exact (Hall i body Hn).
Qed.

(** A successful /predict/batch answers one item per request body, in
    order, each equal to what /predict answers for that body alone, and
    logs the count: a batch succeeds only if every body would succeed on
    its own. *)
Theorem batch_agrees_with_single_predictions m bodies b logs :
  Api.predict_batch (Some m) bodies = (Api.HTTP200 b, logs) ->
  Api.count b = length bodies /\ length (Api.predictions b) = length bodies /\
  logs = [Api.BatchPrediction (length bodies)] /\
  forall i body, nth_error bodies i = Some body ->
    exists resp plogs,
      Api.predict (Some m) body = (Api.HTTP200 resp, plogs) /\
      nth_error (Api.predictions b) i =
        Some {| Api.item_churn_probability := Api.churn_probability resp;
                Api.item_prediction := Api.prediction resp |}.
Proof.
  unfold Api.predict_batch.
  destruct (Api.parse_customers bodies) as [fs |] eqn:Hp; [| discriminate].
  destruct (Api.batch_loop m fs) as [items | err] eqn:Hl; [| discriminate].
  intro H. injection H as <- <-.
  destruct (batch_loop_agrees m bodies fs items Hp Hl) as [Hlen Hall].
  simpl. rewrite Hlen. auto.
Qed.

Lemma batch_agrees_with_single_predictions_witness :
  exists b logs,
    Api.predict_batch (Some mock_model) [test_customer; test_customer] = (Api.HTTP200 b, logs) /\
    Api.count b = 2%nat /\ length (Api.predictions b) = 2%nat /\
    logs = [Api.BatchPrediction 2] /\
    forall i body, nth_error [test_customer; test_customer] i = Some body ->
      exists resp plogs,
        Api.predict (Some mock_model) body = (Api.HTTP200 resp, plogs) /\
        nth_error (Api.predictions b) i =
          Some {| Api.item_churn_probability := Api.churn_probability resp;
                  Api.item_prediction := Api.prediction resp |}.
Proof.
  do 2 eexists. split; [reflexivity |].
  eapply (batch_agrees_with_single_predictions mock_model [test_customer; test_customer]).
  reflexivity.
Defined.

Lemma batch_loop_raises m : forall bodies fs i body f err,
  Api.parse_customers bodies = Some fs -> nth_error bodies i = Some body ->
  Api.parse_customer body = Some f -> Api.churn_proba m f = Api.Raised err ->
  exists err', Api.batch_loop m fs = Api.Raised err'.
Proof.
  induction bodies as [| b rest IH]; intros fs i body f err Hp Hn Hf Hc;
    [destruct i; discriminate |].
  simpl in Hp.
  destruct (Api.parse_customer b) as [g |] eqn:Hb; [| discriminate].
  destruct (Api.parse_customers rest) as [fs' |] eqn:Hr; [| discriminate].
  injection Hp as <-. simpl.
  destruct i as [|i]; simpl in Hn.
  - injection Hn as ->. rewrite Hb in Hf. injection Hf as ->. rewrite Hc. eauto.
  - destruct (Api.churn_proba m g); [| eauto].
    destruct (IH fs' i body f err eq_refl Hn Hf Hc) as [err' ->]. eauto.
Qed.

(** When every body of a batch validates but /predict would answer 500 for
    one of them, the whole batch answers 500 and logs the error; no partial
    list is returned. *)
Theorem batch_fails_if_one_prediction_fails m bodies fs i body msg plogs :
  Api.parse_customers bodies = Some fs -> nth_error bodies i = Some body ->
  Api.predict (Some m) body = (Api.HTTPError 500 msg, plogs) ->
  exists err, Api.predict_batch (Some m) bodies =
              (Api.HTTPError 500 err, [Api.BatchPredictionError err]).
Proof.
  intros Hp Hn Hpr. unfold Api.predict in Hpr.
  destruct (Api.parse_customer body) as [f |] eqn:Hf; [| discriminate].
  destruct (Api.churn_proba m f) as [proba | err] eqn:Hc; [discriminate |].
  destruct (batch_loop_raises m bodies fs i body f err Hp Hn Hf Hc) as [err' Hl].
  unfold Api.predict_batch. rewrite Hp, Hl. eauto.
Qed.

Lemma batch_fails_if_one_prediction_fails_witness :
  exists fs msg plogs,
    Api.parse_customers [test_customer; test_customer] = Some fs /\
    nth_error [test_customer; test_customer] 1 = Some test_customer /\
    Api.predict (Some one_class_model) test_customer = (Api.HTTPError 500 msg, plogs) /\
    exists err, Api.predict_batch (Some one_class_model) [test_customer; test_customer] =
                (Api.HTTPError 500 err, [Api.BatchPredictionError err]).
Proof.
  do 3 eexists. split; [reflexivity |]. split; [reflexivity |].
  split; [reflexivity |].
  eapply (batch_fails_if_one_prediction_fails one_class_model [test_customer; test_customer]
            _ 1); reflexivity.
Defined.

(** After the startup hook, /health answers 503 exactly when [joblib.load]
    raised, and so do /predict and /predict/batch on bodies that validate:
    a loaded model never yields 503, a failed load always does. *)
Theorem endpoints_503_iff_load_failed (joblib_load : string -> Api.outcome Api.classifier)
    (MODEL_PATH : string) :
  (Api.health (fst (Api.load_model joblib_load MODEL_PATH)) =
     Api.HTTPError 503 "Model not loaded" <->
   exists err, joblib_load MODEL_PATH = Api.Raised err) /\
  (forall body f, Api.parse_customer body = Some f ->
     (fst (Api.predict (fst (Api.load_model joblib_load MODEL_PATH)) body) =
        Api.HTTPError 503 "Model unavailable" <->
      exists err, joblib_load MODEL_PATH = Api.Raised err)) /\
  (forall bodies fs, Api.parse_customers bodies = Some fs ->
     (fst (Api.predict_batch (fst (Api.load_model joblib_load MODEL_PATH)) bodies) =
        Api.HTTPError 503 "Model unavailable" <->
      exists err, joblib_load MODEL_PATH = Api.Raised err)).
Proof.
  unfold Api.load_model.
  destruct (joblib_load MODEL_PATH) as [m | err0]; simpl.
  - split; [| split].
    + split; [discriminate | intros [err H]; discriminate].
    + intros body f Hf. unfold Api.predict. rewrite Hf.
      split; [| intros [err H]; discriminate].
      destruct (Api.churn_proba m f); simpl; discriminate.
    + intros bodies fs Hp. unfold Api.predict_batch. rewrite Hp.
      split; [| intros [err H]; discriminate].
      destruct (Api.batch_loop m fs); simpl; discriminate.
  - split; [| split].
    + split; eauto.
    + intros body f Hf. unfold Api.predict. rewrite Hf. split; eauto.
    + intros bodies fs Hp. unfold Api.predict_batch. rewrite Hp. split; eauto.
Qed.

Lemma is_integral_inject_Z z : Api.is_integral (inject_Z z) = true.
Proof.
  unfold Api.is_integral, Qred. simpl.
  destruct (Z.ggcd z 1) as [g [a b]] eqn:E.
  pose proof (Z.ggcd_gcd z 1) as Hg. rewrite E, Z.gcd_1_r in Hg. simpl in Hg.
  pose proof (Z.ggcd_correct_divisors z 1) as Hd. rewrite E in Hd.
  destruct Hd as [_ Hb]. subst g. rewrite Z.mul_1_l in Hb. subst b. reflexivity.
Qed.

Lemma int_field_ok j name lo hi z :
  dict_get j name = Some (inject_Z z) -> (lo <= z <= hi)%Z ->
  Api.int_field j name lo hi = Some (inject_Z z).
Proof.
  intros Hg [Hlo Hhi]. unfold Api.int_field. rewrite Hg, is_integral_inject_Z.
  assert (H1 : Qle_bool (inject_Z lo) (inject_Z z) = true)
    by (apply Qle_bool_iff; rewrite <- Zle_Qle; exact Hlo).
  assert (H2 : Qle_bool (inject_Z z) (inject_Z hi) = true)
    by (apply Qle_bool_iff; rewrite <- Zle_Qle; exact Hhi).
  now rewrite H1, H2.
Qed.

Lemma float_ge0_field_ok j name v :
  dict_get j name = Some v -> 0 <= v -> Api.float_ge0_field j name = Some v.
Proof.
  intros Hg Hv. unfold Api.float_ge0_field. rewrite Hg.
  apply Qle_bool_iff in Hv. now rewrite Hv.
Qed.

(** Every body the Streamlit form can build from its widgets (sliders and
    number inputs within their ranges, any checkbox and country choice)
    passes the API's validation, the model sees the form's values in the
    order the form lists them, and at most one country column is set. *)
Theorem form_data_always_validates (credit_score age tenure : Z) (balance : Q)
    (num_products : Z) (has_cr_card is_active_member : bool) (estimated_salary : Q)
    (geography : string) :
  (300 <= credit_score <= 850)%Z -> (18 <= age <= 100)%Z -> (0 <= tenure <= 10)%Z ->
  0 <= balance -> (1 <= num_products <= 4)%Z -> 0 <= estimated_salary ->
  exists f,
    Api.parse_customer (Client.customer_data credit_score age tenure balance num_products
                          has_cr_card is_active_member estimated_salary geography) = Some f /\
    Api.input_vector f =
      map snd (Client.customer_data credit_score age tenure balance num_products
                 has_cr_card is_active_member estimated_salary geography) /\
    Api.Geography_Germany f + Api.Geography_Spain f <= 1.
Proof.
  intros Hcs Hage Hten Hbal Hnp Hsal.
  set (gg := if String.eqb geography "Allemagne" then 1%Z else 0%Z).
  set (gs := if String.eqb geography "Espagne" then 1%Z else 0%Z).
  assert (Hgg : (0 <= gg <= 1)%Z) by (unfold gg; destruct (String.eqb geography "Allemagne"); lia).
  assert (Hgs : (0 <= gs <= 1)%Z) by (unfold gs; destruct (String.eqb geography "Espagne"); lia).
  assert (Hsum : (gg + gs <= 1)%Z).
  { unfold gg, gs.
    destruct (String.eqb geography "Allemagne") eqn:E1; [| destruct (String.eqb geography "Espagne"); lia].
    apply String.eqb_eq in E1. subst geography. simpl. lia. }
  set (cc := if has_cr_card then 1%Z else 0%Z).
  set (am := if is_active_member then 1%Z else 0%Z).
  assert (Hcc : (0 <= cc <= 1)%Z) by (unfold cc; destruct has_cr_card; lia).
  assert (Ham : (0 <= am <= 1)%Z) by (unfold am; destruct is_active_member; lia).
  assert (Ecc : (if has_cr_card then 1 else 0) = inject_Z cc)
    by (unfold cc; destruct has_cr_card; reflexivity).
  assert (Eam : (if is_active_member then 1 else 0) = inject_Z am)
    by (unfold am; destruct is_active_member; reflexivity).
  unfold Client.customer_data. fold gg gs. rewrite Ecc, Eam.
  unfold Api.parse_customer.
  rewrite (int_field_ok _ _ _ _ credit_score), (int_field_ok _ _ _ _ age),
          (int_field_ok _ _ _ _ tenure), (float_ge0_field_ok _ _ balance),
          (int_field_ok _ _ _ _ num_products), (int_field_ok _ _ _ _ cc),
          (int_field_ok _ _ _ _ am), (float_ge0_field_ok _ _ estimated_salary),
          (int_field_ok _ _ _ _ gg), (int_field_ok _ _ _ _ gs);
    try reflexivity; try assumption.
  eexists. split; [reflexivity |]. split; [reflexivity |]. simpl.
  rewrite <- inject_Z_plus. change 1 with (inject_Z 1).
  rewrite <- Zle_Qle. exact Hsum.
Qed.

Lemma form_data_always_validates_witness :
  exists f,
    Api.parse_customer (Client.customer_data 650 35 5 50000 2 true true 75000 "France")
      = Some f /\
    Api.input_vector f =
      map snd (Client.customer_data 650 35 5 50000 2 true true 75000 "France") /\
    Api.Geography_Germany f + Api.Geography_Spain f <= 1.
Proof.
  apply form_data_always_validates; try lia; unfold Qle; simpl; lia.
Defined.

(** With a model whose [predict_proba] returns a single probability column
    (a model fitted on one class), /predict answers 500 with numpy's
    IndexError message for every valid body and logs it, and so does every
    valid batch that contains a body. *)
Theorem single_column_model_never_predicts (m : Api.classifier) body f :
  (forall x, exists p rows, m x = Api.Done ([p] :: rows)) ->
  Api.parse_customer body = Some f ->
  Api.predict (Some m) body =
    (Api.HTTPError 500 "index 1 is out of bounds for axis 0 with size 1",
     [Api.PredictionError "index 1 is out of bounds for axis 0 with size 1"]) /\
  (forall bodies fs, Api.parse_customers bodies = Some fs ->
   Api.predict_batch (Some m) (body :: bodies) =
     (Api.HTTPError 500 "index 1 is out of bounds for axis 0 with size 1",
      [Api.BatchPredictionError "index 1 is out of bounds for axis 0 with size 1"])).
Proof.
  intros Hm Hf.
  assert (Hc : Api.churn_proba m f =
               Api.Raised "index 1 is out of bounds for axis 0 with size 1").
  { unfold Api.churn_proba. destruct (Hm [Api.input_vector f]) as (p & rows & ->).
    reflexivity. }
  split.
  - unfold Api.predict. now rewrite Hf, Hc.
  - intros bodies fs Hp. unfold Api.predict_batch. simpl. rewrite Hf, Hp. simpl.
    now rewrite Hc.
Qed.

Lemma single_column_model_never_predicts_witness :
  exists f,
    Api.parse_customer test_customer = Some f /\
    Api.predict (Some one_class_model) test_customer =
      (Api.HTTPError 500 "index 1 is out of bounds for axis 0 with size 1",
       [Api.PredictionError "index 1 is out of bounds for axis 0 with size 1"]) /\
    (forall bodies fs, Api.parse_customers bodies = Some fs ->
     Api.predict_batch (Some one_class_model) (test_customer :: bodies) =
       (Api.HTTPError 500 "index 1 is out of bounds for axis 0 with size 1",
        [Api.BatchPredictionError "index 1 is out of bounds for axis 0 with size 1"])).
Proof.
  eexists. split; [reflexivity |].
  eapply (single_column_model_never_predicts one_class_model test_customer).
  - intro x. exists 1, []. reflexivity.
  - reflexivity.
Defined.
